(** * Per-agent Python environments: [portal/env_manager.py]

    A shallow embedding of the three functions of the module
    ([_python_executable], [ensure_env], [run]) and the properties of
    them that the specification states.

    The module is glue around three external tools: [venv.create],
    [pip install] through [subprocess.check_call], and the agent
    process through [subprocess.run].  Their behaviour is not part of
    the module, so it is supplied by a [Host]: for every tool call the
    host says, from the world as it is at that moment, how the call
    ends.  What the module itself does is sequencing, path
    arithmetic, existence tests and the marker file, and that is what
    is modelled in full.

    Modelling boundary.
    - [files] records which paths exist.  It changes only through the
      module's own file operations ([mkdir], [venv.create], [touch]);
      what [pip] or the agent write on their own is outside the model.
      What [venv.create] lays out besides the root and the interpreter
      ([pyvenv.cfg], [lib], ...) is the host's [venv_layout].
    - [mkdir], [touch], [Path.home] and [Path.resolve] are taken to
      succeed, and a child process to start; the failures modelled are
      the three the specification names: environment creation raising,
      the installer exiting non-zero, the agent exiting non-zero.
    - [agent_name] and the literal segments are single path segments,
      as the specification requires of callers, and a path is the
      [pathlib] value: two spellings of one file are two paths. *)

From Stdlib Require Import ZArith String List.
From stdpp Require Import base decidable countable gmap sets list strings.

Local Open Scope string_scope.
Local Open Scope Z_scope.
Local Open Scope list_scope.

(** ** Paths ([pathlib.Path]) *)

Record Path := mkPath { anchor : string; parts : list string }.

#[global] Instance Path_eq_dec : EqDecision Path.
Proof. solve_decision. Defined.

#[global] Instance Path_countable : Countable Path :=
  inj_countable' (fun p => (anchor p, parts p))
                 (fun ap => mkPath (fst ap) (snd ap))
                 (fun p => match p with mkPath _ _ => eq_refl end).

(** [p / seg]: an empty or [.] segment leaves the path as it is. *)
Definition joinpath (p : Path) (seg : string) : Path :=
  if bool_decide (seg = "" ∨ seg = ".") then p
  else mkPath (anchor p) (parts p ++ [seg]).

Notation "p </> seg" := (joinpath p seg) (at level 40, left associativity).

(** [p.parent]: the root is its own parent. *)
Definition parent (p : Path) : Path := mkPath (anchor p) (removelast (parts p)).

(** [p.name]: the final segment, empty for a root. *)
Definition name (p : Path) : string := List.last (parts p) "".

Fixpoint prefixes {A} (l : list A) : list (list A) :=
  match l with
  | [] => [[]]
  | x :: l' => [] :: map (cons x) (prefixes l')
  end.

(** [p] and every ancestor of it, root first: the directories that
    [p.mkdir(parents=True, exist_ok=True)] leaves in existence. *)
Definition lineage (p : Path) : list Path :=
  map (mkPath (anchor p)) (prefixes (parts p)).

(** ** The world: existing paths and the tool calls made so far *)

Inductive VenvOutcome :=
| VenvBuilt                          (* the environment is complete *)
| VenvBroken (root_left : bool).     (* [venv.create] raised; the root may be left behind *)

Inductive Event :=
| EvVenvCreate (env_dir : Path) (with_pip : bool) (o : VenvOutcome)
| EvCheckCall (args : list string) (returncode : Z)
| EvRun (args : list string) (cwd : string) (returncode : Z).

#[global] Instance VenvOutcome_eq_dec : EqDecision VenvOutcome.
Proof. solve_decision. Defined.

#[global] Instance Event_eq_dec : EqDecision Event.
Proof. solve_decision. Defined.

Record World := mkWorld { files : gset Path; trace : list Event }.

Definition log (e : Event) (w : World) : World :=
  mkWorld (files w) (trace w ++ [e]).

Definition add_files (ps : gset Path) (w : World) : World :=
  mkWorld (files w ∪ ps) (trace w).

(** ** The host: platform, home directory and the external tools *)

Record Host := mkHost {
  os_name : string;                                   (* [os.name] *)
  sep : string;                                       (* separator [pathlib] renders with *)
  home : Path;                                        (* [Path.home()] *)
  resolve : string -> Path;                           (* [Path(s).resolve()] *)
  venv_layout : Path -> gset Path;                    (* what else a new environment holds *)
  venv_outcome : World -> Path -> VenvOutcome;        (* how [venv.create] ends *)
  exit_status : World -> list string -> option string -> Z
                                                      (* exit status of a child process *)
}.

(** [str(p)] *)
Definition path_str (h : Host) (p : Path) : string :=
  match anchor p, parts p with
  | "", [] => "."
  | a, ps => a +:+ String.concat (sep h) ps
  end.

(** ** Exceptions and the state-and-exception monad *)

Inductive exn :=
| VenvError (env_dir : Path)
| CalledProcessError (returncode : Z) (cmd : list string).

Inductive result (A : Type) :=
| Ok (a : A)
| Raise (e : exn).
Arguments Ok {A} a.
Arguments Raise {A} e.

Definition M (A : Type) : Type := World -> World * result A.

Definition ret {A} (a : A) : M A := fun w => (w, Ok a).

Definition bind {A B} (c : M A) (k : A -> M B) : M B :=
  fun w =>
    match c w with
    | (w', Ok a) => k a w'
    | (w', Raise e) => (w', Raise e)
    end.

Notation "x <- c ;; k" := (bind c (fun x => k))
  (at level 100, c at next level, right associativity).
Notation "c ;; k" := (bind c (fun _ => k))
  (at level 100, right associativity).

(** The world a computation leaves, and how it ends. *)
Definition after {A} (c : M A) (w : World) : World := fst (c w).
Definition outcome {A} (c : M A) (w : World) : result A := snd (c w).

(** ** [_python_executable] *)

Definition _python_executable (h : Host) (env_path : Path) : Path :=
  if bool_decide (os_name h = "nt") then env_path </> "Scripts" </> "python.exe"
  else env_path </> "bin" </> "python".

(** ** File and process primitives *)

(** [p.exists()] *)
Definition path_exists (p : Path) : M bool :=
  fun w => (w, Ok (bool_decide (p ∈ files w))).

(** [p.mkdir(parents=True, exist_ok=True)] *)
Definition mkdir_parents (p : Path) : M unit :=
  fun w => (add_files (list_to_set (lineage p)) w, Ok tt).

(** [p.touch()] *)
Definition touch (p : Path) : M unit :=
  fun w => (add_files {[ p ]} w, Ok tt).

(** The paths of a fresh environment: its root, its interpreter, and
    whatever else the platform's [venv] lays out, which the host says.
    The marker is the module's own file; [venv] never makes it. *)
Definition venv_tree (h : Host) (env_dir : Path) : gset Path :=
  {[ env_dir; parent (_python_executable h env_dir); _python_executable h env_dir ]}
  ∪ (venv_layout h env_dir ∖ {[ env_dir </> ".requirements_installed" ]}).

(** [venv.create(env_dir, with_pip=...)] *)
Definition venv_create (h : Host) (env_dir : Path) (with_pip : bool) : M unit :=
  fun w =>
    let o := venv_outcome h w env_dir in
    let w' := log (EvVenvCreate env_dir with_pip o) w in
    match o with
    | VenvBuilt => (add_files (venv_tree h env_dir) w', Ok tt)
    | VenvBroken root_left =>
        (add_files (if root_left then {[ env_dir ]} else ∅) w',
         Raise (VenvError env_dir))
    end.

(** [subprocess.check_call(args)], for a child that starts: it returns
    0 or raises [CalledProcessError]. *)
Definition check_call (h : Host) (args : list string) : M Z :=
  fun w =>
    let rc := exit_status h w args None in
    let w' := log (EvCheckCall args rc) w in
    if bool_decide (rc = 0) then (w', Ok 0)
    else (w', Raise (CalledProcessError rc args)).

Record CompletedProcess := mkCompleted { cp_args : list string; cp_returncode : Z }.

(** [subprocess.run(args, cwd=cwd, check=check)], for a child that
    starts. *)
Definition subprocess_run (h : Host) (args : list string) (cwd : string)
    (check : bool) : M CompletedProcess :=
  fun w =>
    let rc := exit_status h w args (Some cwd) in
    let w' := log (EvRun args cwd rc) w in
    if check && negb (bool_decide (rc = 0))
    then (w', Raise (CalledProcessError rc args))
    else (w', Ok (mkCompleted args rc)).

(** ** [ensure_env] *)

Definition env_dir_of (h : Host) (agent_name : string) : Path :=
  home h </> ".agents" </> agent_name.

Definition marker_of (h : Host) (agent_name : string) : Path :=
  env_dir_of h agent_name </> ".requirements_installed".

Definition install_args (h : Host) (env_dir requirements : Path) : list string :=
  [ path_str h (_python_executable h env_dir);
    "-m"; "pip"; "install"; "-r";
    path_str h requirements ].

Definition ensure_env (h : Host) (agent_name : string)
    (requirements : option Path) : M Path :=
  let env_dir := home h </> ".agents" </> agent_name in
  present <- path_exists env_dir ;;
  (if negb present
   then mkdir_parents (parent env_dir) ;; venv_create h env_dir true
   else ret tt) ;;
  let marker := env_dir </> ".requirements_installed" in
  match requirements with
  | Some req =>
      there <- path_exists req ;;
      marked <- path_exists marker ;;
      if there && negb marked
      then
        check_call h [ path_str h (_python_executable h env_dir);
                       "-m"; "pip"; "install"; "-r";
                       path_str h req ] ;;
        touch marker
      else ret tt
  | None => ret tt
  end ;;
  ret env_dir.

(** Lines 27-29 of [ensure_env] on their own: the environment is
    created when, and only when, its root directory is missing. *)
Definition create_if_missing (h : Host) (env_dir : Path) : M unit :=
  present <- path_exists env_dir ;;
  if negb present
  then mkdir_parents (parent env_dir) ;; venv_create h env_dir true
  else ret tt.

(** The world in which [venv.create] is called when the root is missing. *)
Definition before_venv (env_dir : Path) (w : World) : World :=
  add_files (list_to_set (lineage (parent env_dir))) w.

(** The world in which the installer is invoked, when it is. *)
Definition installer_world (h : Host) (agent_name : string) (w : World) : World :=
  after (create_if_missing h (env_dir_of h agent_name)) w.

(** The tool calls of creating the environment. *)
Definition creation_events (h : Host) (agent_name : string) (w : World)
    : list Event :=
  if bool_decide (env_dir_of h agent_name ∈ files w) then []
  else [EvVenvCreate (env_dir_of h agent_name) true
          (venv_outcome h (before_venv (env_dir_of h agent_name) w)
             (env_dir_of h agent_name))].

(** The tool calls of the install step, entered in world [w0]. *)
Definition install_events (h : Host) (agent_name : string)
    (requirements : option Path) (w0 : World) : list Event :=
  match requirements with
  | Some req =>
      if bool_decide (req ∈ files w0)
         && negb (bool_decide (marker_of h agent_name ∈ files w0))
      then [EvCheckCall (install_args h (env_dir_of h agent_name) req)
              (exit_status h w0
                 (install_args h (env_dir_of h agent_name) req) None)]
      else []
  | None => []
  end.

(** ** [run] *)

(** An element of a command sequence, and what [str] makes of it. *)
Inductive Token :=
| TStr (s : string)
| TPath (p : Path).

Definition token_str (h : Host) (t : Token) : string :=
  match t with
  | TStr s => s
  | TPath p => path_str h p
  end.

(** The [command] argument when it is not [None]. *)
Inductive Command :=
| CmdStr (s : string)                (* a [str] *)
| CmdPath (p : Path)                 (* a [Path] *)
| CmdSeq (cs : list Token).          (* any other sequence *)

Definition command_args (h : Host) (agent_dir : Path)
    (command : option Command) : list string :=
  match command with
  | None => [ path_str h (agent_dir </> "main.py") ]
  | Some (CmdStr s) => [ s ]
  | Some (CmdPath p) => [ path_str h p ]
  | Some (CmdSeq cs) => map (token_str h) cs
  end.

Definition run (h : Host) (agent_path : string)
    (command : option Command) : M CompletedProcess :=
  let agent_dir := resolve h agent_path in
  let agent_name := name agent_dir in
  env_dir <- ensure_env h agent_name (Some (agent_dir </> "requirements.txt")) ;;
  let env_python := _python_executable h env_dir in
  let cmd := command_args h agent_dir command in
  let full_cmd := path_str h env_python :: cmd in
  subprocess_run h full_cmd (path_str h agent_dir) true.

(** ** Reading the trace *)

(** The tool calls made while going from [w] to [w']. *)
Definition events_since (w w' : World) : list Event :=
  drop (length (trace w)) (trace w').

Definition is_install (e : Event) : bool :=
  match e with EvCheckCall _ _ => true | _ => false end.

Definition is_venv_create (e : Event) : bool :=
  match e with EvVenvCreate _ _ _ => true | _ => false end.

Definition is_spawn (e : Event) : bool :=
  match e with EvRun _ _ _ => true | _ => false end.

Definition count_events (f : Event -> bool) (es : list Event) : nat :=
  length (List.filter f es).

(** The agent processes spawned, as (argument vector, working
    directory), and their exit statuses. *)
Definition invocations (es : list Event) : list (list string * string) :=
  flat_map (fun e => match e with
                     | EvRun args cwd _ => [(args, cwd)]
                     | _ => []
                     end) es.

Definition exit_statuses (es : list Event) : list Z :=
  flat_map (fun e => match e with
                     | EvRun _ _ rc => [rc]
                     | _ => []
                     end) es.

(** Line 59 of [run]: the call it makes to [ensure_env]. *)
Definition provision (h : Host) (agent_path : string) : M Path :=
  ensure_env h (name (resolve h agent_path))
    (Some (resolve h agent_path </> "requirements.txt")).

(** [str(env_python)] for the agent at [agent_path]. *)
Definition interpreter (h : Host) (agent_path : string) : string :=
  path_str h
    (_python_executable h (env_dir_of h (name (resolve h agent_path)))).

(** What [run] spawns, read off the trace. *)
Definition spawned_by (h : Host) (agent_path : string)
    (command : option Command) (w : World) : list (list string * string) :=
  invocations (events_since w (after (run h agent_path command) w)).


(** [x] when provisioning succeeds in [w], nothing when it raises. *)
Definition when_provisioned {A} (h : Host) (agent_path : string) (w : World)
    (x : A) : list A :=
  match outcome (provision h agent_path) w with
  | Ok _ => [x]
  | Raise _ => []
  end.


(** ** The module without the platform test

    [venv.create]'s effect, [ensure_env] and [run] once more, with a
    parameter [locate] in each place where the source calls
    [_python_executable], and nothing else changed.  They serve to
    state that the platform enters the module through
    [_python_executable] alone. *)

Definition venv_tree_with (locate : Path -> Path) (h : Host) (env_dir : Path)
    : gset Path :=
  {[ env_dir; parent (locate env_dir); locate env_dir ]}
  ∪ (venv_layout h env_dir ∖ {[ env_dir </> ".requirements_installed" ]}).

Definition venv_create_with (locate : Path -> Path) (h : Host)
    (env_dir : Path) (with_pip : bool) : M unit :=
  fun w =>
    let o := venv_outcome h w env_dir in
    let w' := log (EvVenvCreate env_dir with_pip o) w in
    match o with
    | VenvBuilt => (add_files (venv_tree_with locate h env_dir) w', Ok tt)
    | VenvBroken root_left =>
        (add_files (if root_left then {[ env_dir ]} else ∅) w',
         Raise (VenvError env_dir))
    end.

Definition ensure_env_with (locate : Path -> Path) (h : Host)
    (agent_name : string) (requirements : option Path) : M Path :=
  let env_dir := home h </> ".agents" </> agent_name in
  present <- path_exists env_dir ;;
  (if negb present
   then mkdir_parents (parent env_dir) ;; venv_create_with locate h env_dir true
   else ret tt) ;;
  let marker := env_dir </> ".requirements_installed" in
  match requirements with
  | Some req =>
      there <- path_exists req ;;
      marked <- path_exists marker ;;
      if there && negb marked
      then
        check_call h [ path_str h (locate env_dir);
                       "-m"; "pip"; "install"; "-r";
                       path_str h req ] ;;
        touch marker
      else ret tt
  | None => ret tt
  end ;;
  ret env_dir.

Definition run_with (locate : Path -> Path) (h : Host) (agent_path : string)
    (command : option Command) : M CompletedProcess :=
  let agent_dir := resolve h agent_path in
  let agent_name := name agent_dir in
  env_dir <- ensure_env_with locate h agent_name
               (Some (agent_dir </> "requirements.txt")) ;;
  let env_python := locate env_dir in
  let cmd := command_args h agent_dir command in
  let full_cmd := path_str h env_python :: cmd in
  subprocess_run h full_cmd (path_str h agent_dir) true.

(** The same host on a platform with another [os.name]. *)
Definition with_os_name (os : string) (h : Host) : Host :=
  mkHost os (sep h) (home h) (resolve h) (venv_layout h)
         (venv_outcome h) (exit_status h).

(** ** A concrete host for examples *)

Module Demo.

Definition home_dir : Path := mkPath "/" ["home"; "u"].

Definition to_abs (s : string) : Path :=
  if bool_decide (s = "/") then mkPath "/" []
  else mkPath "/" ["srv"; s].

(** What [venv] lays out besides the interpreter, in short. *)
Definition posix_layout (env_dir : Path) : gset Path :=
  {[ env_dir </> "pyvenv.cfg"; env_dir </> "include"; env_dir </> "lib";
     env_dir </> "bin" </> "pip"; env_dir </> "bin" </> "activate" ]}.

Definition nt_layout (env_dir : Path) : gset Path :=
  {[ env_dir </> "pyvenv.cfg"; env_dir </> "Include"; env_dir </> "Lib";
     env_dir </> "Scripts" </> "pip.exe";
     env_dir </> "Scripts" </> "activate.bat" ]}.

(** Every tool succeeds. *)
Definition posix : Host :=
  mkHost "posix" "/" home_dir to_abs posix_layout
         (fun _ _ => VenvBuilt) (fun _ _ _ => 0).

Definition windows : Host :=
  mkHost "nt" "\" (mkPath "C:\" ["Users"; "u"])
         (fun s => mkPath "C:\" ["srv"; s]) nt_layout
         (fun _ _ => VenvBuilt) (fun _ _ _ => 0).

(** [pip] fails on its first invocation and succeeds afterwards; the
    agent exits with status 3. *)
Definition flaky : Host :=
  mkHost "posix" "/" home_dir to_abs posix_layout (fun _ _ => VenvBuilt)
         (fun w _ cwd =>
            match cwd with
            | Some _ => 3
            | None => if bool_decide (count_events is_install (trace w) = 0%nat)
                      then 1 else 0
            end).

(** [venv.create] raises and leaves the root directory behind. *)
Definition broken : Host :=
  mkHost "posix" "/" home_dir to_abs posix_layout
         (fun _ _ => VenvBroken true) (fun _ _ _ => 0).

Definition empty : World := mkWorld ∅ [].

Definition manifest : Path := mkPath "/" ["srv"; "demo"; "requirements.txt"].

Definition with_manifest : World := mkWorld {[ manifest ]} [].

End Demo.

(** ** Notions for the further properties *)


(** The test of line 32: a manifest is given, it exists and the marker
    does not. *)
Definition install_due (h : Host) (agent_name : string)
    (requirements : option Path) (w : World) : bool :=
  match requirements with
  | Some req =>
      bool_decide (req ∈ files w)
      && negb (bool_decide (marker_of h agent_name ∈ files w))
  | None => false
  end.

(** The manifest [run] looks for. *)
Definition manifest_of (h : Host) (agent_path : string) : Path :=
  resolve h agent_path </> "requirements.txt".

(** Whether a tool call ended well. *)
Definition step_ok (e : Event) : bool :=
  match e with
  | EvVenvCreate _ _ VenvBuilt => true
  | EvVenvCreate _ _ (VenvBroken _) => false
  | EvCheckCall _ rc => bool_decide (rc = 0)
  | EvRun _ _ rc => bool_decide (rc = 0)
  end.

(** The tool calls of one [run], in order. *)
Definition tool_calls (h : Host) (agent_path : string)
    (command : option Command) (w : World) : list Event :=
  events_since w (after (run h agent_path command) w).

(** Two checkouts whose directories have the same name. *)
Module Fleet.

Definition locate (s : string) : Path :=
  if bool_decide (s = "one") then mkPath "/" ["one"; "demo"]
  else mkPath "/" ["two"; "demo"].

Definition host : Host :=
  mkHost "posix" "/" Demo.home_dir locate Demo.posix_layout
         (fun _ _ => VenvBuilt) (fun _ _ _ => 0).

(** The first checkout has been provisioned and its manifest installed;
    the second one brings a manifest of its own. *)
Definition installed : World :=
  mkWorld {[ mkPath "/" ["home"; "u"; ".agents"; "demo"];
             mkPath "/" ["home"; "u"; ".agents"; "demo"; ".requirements_installed"];
             mkPath "/" ["two"; "demo"; "requirements.txt"] ]} [].

End Fleet.

(** * Properties *)

(** ** Paths *)

Lemma joinpath_segment (p : Path) (seg : string) :
  seg ≠ "" -> seg ≠ "." -> p </> seg = mkPath (anchor p) (parts p ++ [seg]).
Proof.
  intros H1 H2. unfold joinpath.
  rewrite bool_decide_eq_false_2; [reflexivity | intros [?|?]; contradiction].
Qed.

Lemma marker_parts (p : Path) :
  p </> ".requirements_installed"
  = mkPath (anchor p) (parts p ++ [".requirements_installed"]).
Proof. reflexivity. Qed.

Lemma python_executable_parts (h : Host) (p : Path) :
  _python_executable h p
  = mkPath (anchor p)
      (parts p ++ (if bool_decide (os_name h = "nt")
                   then ["Scripts"; "python.exe"] else ["bin"; "python"])).
Proof.
  unfold _python_executable. destruct (bool_decide (os_name h = "nt")).
  all: rewrite !joinpath_segment by discriminate; simpl.
  all: rewrite <- app_assoc; reflexivity.
Qed.

Lemma prefixes_length {A} (l q : list A) :
  In q (prefixes l) -> (length q <= length l)%nat.
Proof.
  revert q. induction l as [|x l IH]; intros q Hq; simpl in Hq.
  - destruct Hq as [<-|[]]. simpl. lia.
  - destruct Hq as [<-|Hq]; [simpl; lia|].
    apply in_map_iff in Hq as (q' & <- & Hq'). apply IH in Hq'. simpl. lia.
Qed.

Lemma prefixes_self {A} (l : list A) : In l (prefixes l).
Proof.
  induction l as [|x l IH]; simpl; [left; reflexivity|].
  right. apply in_map. exact IH.
Qed.

Lemma lineage_parts (p q : Path) :
  q ∈ lineage p -> (length (parts q) <= length (parts p))%nat.
Proof.
  unfold lineage. rewrite list_elem_of_In, in_map_iff.
  intros (l & <- & Hl). simpl. apply prefixes_length, Hl.
Qed.

Lemma lineage_self (p : Path) : p ∈ lineage p.
Proof.
  unfold lineage. rewrite list_elem_of_In, in_map_iff.
  exists (parts p). split; [destruct p; reflexivity | apply prefixes_self].
Qed.

Lemma removelast_length_le {A} (l : list A) :
  (length (removelast l) <= length l)%nat.
Proof.
  induction l as [|x [|y l] IH]; simpl in *; lia.
Qed.

(** The marker is none of the paths that creating the environment
    brings into existence. *)
Lemma marker_not_in_lineage (env_dir : Path) :
  env_dir </> ".requirements_installed" ∉ lineage (parent env_dir).
Proof.
  intros Hin. apply lineage_parts in Hin. rewrite marker_parts in Hin.
  simpl in Hin. rewrite length_app in Hin. simpl in Hin.
  pose proof (removelast_length_le (parts env_dir)). lia.
Qed.

Lemma marker_not_in_venv_tree (h : Host) (env_dir : Path) :
  env_dir </> ".requirements_installed" ∉ venv_tree h env_dir.
Proof.
  unfold venv_tree. rewrite elem_of_union, elem_of_difference.
  intros [Hcore|[_ Hout]]; [|apply Hout, elem_of_singleton; reflexivity].
  revert Hcore. rewrite python_executable_parts, marker_parts.
  unfold parent. simpl.
  assert (Hlen : forall a b : Path, a = b -> length (parts a) = length (parts b))
    by (intros ? ? ->; reflexivity).
  destruct (bool_decide (os_name h = "nt"));
    rewrite !elem_of_union, !elem_of_singleton;
    intros [[Heq|Heq]|Heq].
  all: try (apply Hlen in Heq; simpl in Heq; rewrite ?length_app in Heq;
            simpl in Heq; lia).
  all: injection Heq as Heq; rewrite removelast_app in Heq by discriminate;
       simpl in Heq; apply app_inv_head in Heq; discriminate.
Qed.

(** ** The first half of [ensure_env]: creating the environment *)

Section Provisioning.

Variable h : Host.

Lemma create_if_missing_present (env_dir : Path) (w : World) :
  env_dir ∈ files w -> create_if_missing h env_dir w = (w, Ok tt).
Proof.
  intros Hin. unfold create_if_missing, bind, path_exists, ret.
  rewrite bool_decide_eq_true_2 by exact Hin. reflexivity.
Qed.

Lemma create_if_missing_absent (env_dir : Path) (w : World) :
  env_dir ∉ files w ->
  create_if_missing h env_dir w
  = venv_create h env_dir true (before_venv env_dir w).
Proof.
  intros Hout. unfold create_if_missing, bind, path_exists, mkdir_parents, before_venv.
  rewrite bool_decide_eq_false_2 by exact Hout. reflexivity.
Qed.

Lemma create_if_missing_trace (env_dir : Path) (w : World) :
  trace (after (create_if_missing h env_dir) w)
  = trace w ++
      (if bool_decide (env_dir ∈ files w) then []
       else [EvVenvCreate env_dir true
               (venv_outcome h (before_venv env_dir w) env_dir)]).
Proof.
  unfold after. case_bool_decide as Hin.
  - rewrite create_if_missing_present by exact Hin. simpl.
    rewrite app_nil_r. reflexivity.
  - rewrite create_if_missing_absent by exact Hin.
    unfold venv_create, before_venv.
    destruct (venv_outcome h _ env_dir); reflexivity.
Qed.

Lemma create_if_missing_mono (env_dir : Path) (w : World) :
  files w ⊆ files (after (create_if_missing h env_dir) w).
Proof.
  unfold after. destruct (decide (env_dir ∈ files w)) as [Hin|Hout].
  - rewrite create_if_missing_present by exact Hin. reflexivity.
  - rewrite create_if_missing_absent by exact Hout.
    unfold venv_create.
    destruct (venv_outcome h _ env_dir); simpl; set_solver.
Qed.

Lemma create_if_missing_root (env_dir : Path) (w : World) :
  outcome (create_if_missing h env_dir) w = Ok tt ->
  env_dir ∈ files (after (create_if_missing h env_dir) w).
Proof.
  unfold after, outcome. destruct (decide (env_dir ∈ files w)) as [Hin|Hout].
  - rewrite create_if_missing_present by exact Hin. intros _. exact Hin.
  - rewrite create_if_missing_absent by exact Hout.
    unfold venv_create, venv_tree.
    destruct (venv_outcome h _ env_dir); simpl; [set_solver | discriminate].
Qed.

Lemma create_if_missing_marker (env_dir : Path) (w : World) :
  env_dir </> ".requirements_installed"
    ∈ files (after (create_if_missing h env_dir) w)
  <-> env_dir </> ".requirements_installed" ∈ files w.
Proof.
  split; [|apply create_if_missing_mono].
  unfold after. destruct (decide (env_dir ∈ files w)) as [Hin|Hout].
  - rewrite create_if_missing_present by exact Hin. trivial.
  - rewrite create_if_missing_absent by exact Hout.
    pose proof (marker_not_in_lineage env_dir) as Hl.
    pose proof (marker_not_in_venv_tree h env_dir) as Hv.
    assert (Hr : env_dir </> ".requirements_installed" ≠ env_dir).
    { intros Heq. apply Hv. unfold venv_tree. rewrite Heq at 1. set_solver. }
    unfold venv_create.
    destruct (venv_outcome h _ env_dir) as [|[|]]; simpl;
      rewrite ?elem_of_union, ?elem_of_list_to_set, ?elem_of_singleton;
      intuition (try set_solver).
Qed.

(** ** [ensure_env], step by step *)

Lemma ensure_env_eq (agent_name : string) (requirements : option Path)
    (w : World) :
  ensure_env h agent_name requirements w
  = let env_dir := env_dir_of h agent_name in
    let marker := marker_of h agent_name in
    match create_if_missing h env_dir w with
    | (w1, Raise e) => (w1, Raise e)
    | (w1, Ok _) =>
        match requirements with
        | None => (w1, Ok env_dir)
        | Some req =>
            if bool_decide (req ∈ files w1)
               && negb (bool_decide (marker ∈ files w1))
            then
              let args := install_args h env_dir req in
              let rc := exit_status h w1 args None in
              if bool_decide (rc = 0)
              then (add_files {[ marker ]} (log (EvCheckCall args rc) w1),
                    Ok env_dir)
              else (log (EvCheckCall args rc) w1,
                    Raise (CalledProcessError rc args))
            else (w1, Ok env_dir)
        end
    end.
Proof.
  assert (Htail : forall w1 : World,
    (match requirements with
     | Some req =>
         there <- path_exists req ;;
         marked <- path_exists (marker_of h agent_name) ;;
         if there && negb marked
         then
           check_call h (install_args h (env_dir_of h agent_name) req) ;;
           touch (marker_of h agent_name)
         else ret tt
     | None => ret tt
     end ;;
     ret (env_dir_of h agent_name)) w1
    = match requirements with
      | None => (w1, Ok (env_dir_of h agent_name))
      | Some req =>
          if bool_decide (req ∈ files w1)
             && negb (bool_decide (marker_of h agent_name ∈ files w1))
          then
            let args := install_args h (env_dir_of h agent_name) req in
            let rc := exit_status h w1 args None in
            if bool_decide (rc = 0)
            then (add_files {[ marker_of h agent_name ]}
                    (log (EvCheckCall args rc) w1),
                  Ok (env_dir_of h agent_name))
            else (log (EvCheckCall args rc) w1,
                  Raise (CalledProcessError rc args))
          else (w1, Ok (env_dir_of h agent_name))
      end).
  { intros w1. destruct requirements as [req|]; [|reflexivity].
    unfold bind, path_exists, ret, check_call, touch.
    destruct (bool_decide (req ∈ files w1)); simpl; [|reflexivity].
    destruct (bool_decide (_ ∈ files w1)); simpl; [reflexivity|].
    destruct (bool_decide (exit_status h w1 _ None = 0)); reflexivity. }
  cbv zeta.
  destruct (decide (env_dir_of h agent_name ∈ files w)) as [Hin|Hout].
  - rewrite create_if_missing_present by exact Hin.
    rewrite <- Htail. unfold ensure_env.
    fold (env_dir_of h agent_name). fold (marker_of h agent_name).
    unfold bind at 1, path_exists at 1.
    rewrite bool_decide_eq_true_2 by exact Hin. reflexivity.
  - rewrite create_if_missing_absent by exact Hout.
    unfold ensure_env.
    fold (env_dir_of h agent_name). fold (marker_of h agent_name).
    unfold bind at 1, path_exists at 1.
    rewrite bool_decide_eq_false_2 by exact Hout.
    unfold negb. unfold bind at 1. unfold bind at 1.
    unfold mkdir_parents at 1.
    destruct (venv_create h _ true _) as [w1 [[]|e]]; [|reflexivity].
    rewrite <- Htail. reflexivity.
Qed.

End Provisioning.

(** ** Traces *)

Lemma events_since_app (w w' : World) (d : list Event) :
  trace w' = trace w ++ d -> events_since w w' = d.
Proof.
  intros Heq. unfold events_since. rewrite Heq. apply drop_app_length.
Qed.

Lemma events_since_refl (w : World) : events_since w w = [].
Proof. apply events_since_app. rewrite app_nil_r. reflexivity. Qed.

Lemma count_events_app (f : Event -> bool) (d1 d2 : list Event) :
  count_events f (d1 ++ d2) = (count_events f d1 + count_events f d2)%nat.
Proof. unfold count_events. rewrite List.filter_app, length_app. reflexivity. Qed.

Section EnsureEnv.

Variable h : Host.
Variable agent_name : string.

Let env_dir := env_dir_of h agent_name.
Let marker := marker_of h agent_name.

Lemma installer_world_trace (w : World) :
  trace (installer_world h agent_name w)
  = trace w ++ creation_events h agent_name w.
Proof. apply create_if_missing_trace. Qed.

Lemma ensure_env_trace (requirements : option Path) (w : World) :
  trace (after (ensure_env h agent_name requirements) w)
  = trace (installer_world h agent_name w)
    ++ match outcome (create_if_missing h env_dir) w with
       | Ok _ => install_events h agent_name requirements
                   (installer_world h agent_name w)
       | Raise _ => []
       end.
Proof.
  unfold after, outcome, installer_world, install_events, after.
  rewrite ensure_env_eq. cbv zeta. fold env_dir marker.
  destruct (create_if_missing h env_dir w) as [w0 [[]|e]]; simpl;
    [|rewrite app_nil_r; reflexivity].
  destruct requirements as [req|]; [|rewrite app_nil_r; reflexivity].
  destruct (bool_decide (req ∈ files w0) && negb (bool_decide (marker ∈ files w0)));
    [|rewrite app_nil_r; reflexivity].
  destruct (bool_decide (exit_status h w0 _ None = 0)); reflexivity.
Qed.

Lemma ensure_env_events (requirements : option Path) (w : World) :
  events_since w (after (ensure_env h agent_name requirements) w)
  = creation_events h agent_name w
    ++ match outcome (create_if_missing h env_dir) w with
       | Ok _ => install_events h agent_name requirements
                   (installer_world h agent_name w)
       | Raise _ => []
       end.
Proof.
  apply events_since_app.
  rewrite ensure_env_trace, installer_world_trace, app_assoc. reflexivity.
Qed.

Lemma creation_events_no_install (w : World) :
  List.filter is_install (creation_events h agent_name w) = [].
Proof. unfold creation_events. case_bool_decide; reflexivity. Qed.

Lemma creation_events_no_spawn (w : World) :
  List.filter is_spawn (creation_events h agent_name w) = [].
Proof. unfold creation_events. case_bool_decide; reflexivity. Qed.

Lemma install_events_no_spawn (requirements : option Path) (w0 : World) :
  List.filter is_spawn (install_events h agent_name requirements w0) = [].
Proof.
  unfold install_events. destruct requirements; [|reflexivity].
  destruct (_ && _); reflexivity.
Qed.

Lemma install_events_no_creation (requirements : option Path) (w0 : World) :
  List.filter is_venv_create (install_events h agent_name requirements w0) = [].
Proof.
  unfold install_events. destruct requirements; [|reflexivity].
  destruct (_ && _); reflexivity.
Qed.

(** Nothing that exists stops existing. *)
Lemma ensure_env_mono (requirements : option Path) (w : World) :
  files w ⊆ files (after (ensure_env h agent_name requirements) w).
Proof.
  pose proof (create_if_missing_mono h env_dir w) as Hmono.
  unfold after in *. rewrite ensure_env_eq. cbv zeta. fold env_dir marker.
  destruct (create_if_missing h env_dir w) as [w0 [[]|e]]; simpl in *;
    [|exact Hmono].
  destruct requirements as [req|]; [|exact Hmono].
  destruct (_ && _); [|exact Hmono].
  destruct (bool_decide (_ = 0)); simpl; set_solver.
Qed.

(** A call that returns, returns the environment directory, and the
    directory exists. *)
Lemma ensure_env_returns (requirements : option Path) (w : World) (p : Path) :
  outcome (ensure_env h agent_name requirements) w = Ok p ->
  p = env_dir
  ∧ outcome (create_if_missing h env_dir) w = Ok tt
  ∧ env_dir ∈ files (after (ensure_env h agent_name requirements) w).
Proof.
  pose proof (create_if_missing_root h env_dir w) as Hroot.
  unfold after, outcome in *. rewrite ensure_env_eq. cbv zeta.
  fold env_dir marker.
  destruct (create_if_missing h env_dir w) as [w0 [[]|e]]; simpl in *;
    [|discriminate].
  specialize (Hroot eq_refl).
  destruct requirements as [req|]; [|intros [= <-]; auto].
  destruct (_ && _); [|intros [= <-]; auto].
  destruct (bool_decide (_ = 0)); simpl; [|discriminate].
  intros [= <-]. repeat split; auto. set_solver.
Qed.

(** With the marker present no installer runs, whatever the manifest. *)
Lemma marked_no_install (requirements : option Path) (w : World) :
  marker ∈ files w ->
  count_events is_install
    (events_since w (after (ensure_env h agent_name requirements) w)) = 0%nat.
Proof.
  intros Hm. rewrite ensure_env_events, count_events_app.
  unfold count_events at 1. rewrite creation_events_no_install. simpl.
  destruct (outcome (create_if_missing h env_dir) w); [|reflexivity].
  unfold install_events. destruct requirements as [req|]; [|reflexivity].
  assert (Hm0 : marker ∈ files (installer_world h agent_name w))
    by (apply create_if_missing_mono, Hm).
  fold marker. rewrite (bool_decide_eq_true_2 _ Hm0), andb_false_r.
  reflexivity.
Qed.

End EnsureEnv.

(** ** Install once, then skip *)

(** C1.  For an agent name [n] and a manifest [m] that exists, a first
    call [ensure_env n m] with the marker absent, in which creating the
    environment (when it is missing) and the installer succeed, returns
    the environment directory, invokes the installer exactly once (it
    is the last tool call, with the arguments [<python> -m pip install
    -r m]) and leaves the marker [~/.agents/n/.requirements_installed]
    in existence.  Every call made while the marker exists, whatever its
    manifest, invokes the installer zero times; so does in particular
    the call that follows the first one. *)
Theorem ensure_env_installs_once
    (h : Host) (n : string) (m : Path) (w : World) :
  m ∈ files w ->
  marker_of h n ∉ files w ->
  outcome (create_if_missing h (env_dir_of h n)) w = Ok tt ->
  exit_status h (installer_world h n w)
    (install_args h (env_dir_of h n) m) None = 0 ->
  outcome (ensure_env h n (Some m)) w = Ok (env_dir_of h n)
  ∧ count_events is_install
      (events_since w (after (ensure_env h n (Some m)) w)) = 1%nat
  ∧ events_since (installer_world h n w) (after (ensure_env h n (Some m)) w)
    = [EvCheckCall (install_args h (env_dir_of h n) m) 0]
  ∧ marker_of h n ∈ files (after (ensure_env h n (Some m)) w)
  ∧ count_events is_install
      (events_since (after (ensure_env h n (Some m)) w)
         (after (ensure_env h n (Some m))
            (after (ensure_env h n (Some m)) w))) = 0%nat
  ∧ (forall (w' : World) (req : option Path),
       marker_of h n ∈ files w' ->
       count_events is_install
         (events_since w' (after (ensure_env h n req) w')) = 0%nat).
Proof.
  intros Hm Hmark Hcreate Hpip.
  assert (Hm0 : m ∈ files (installer_world h n w))
    by (apply create_if_missing_mono, Hm).
  assert (Hmark0 : marker_of h n ∉ files (installer_world h n w))
    by (intros Hin; apply Hmark, (create_if_missing_marker h), Hin).
  assert (Hev : install_events h n (Some m) (installer_world h n w)
                = [EvCheckCall (install_args h (env_dir_of h n) m) 0]).
  { unfold install_events.
    rewrite (bool_decide_eq_true_2 _ Hm0), (bool_decide_eq_false_2 _ Hmark0).
    simpl. rewrite Hpip. reflexivity. }
  assert (Hmarked : marker_of h n ∈ files (after (ensure_env h n (Some m)) w)).
  { unfold after. rewrite ensure_env_eq. cbv zeta.
    unfold installer_world, after, outcome in *.
    destruct (create_if_missing h (env_dir_of h n) w) as [w0 [[]|e]];
      simpl in *; [|discriminate].
    rewrite (bool_decide_eq_true_2 _ Hm0), (bool_decide_eq_false_2 _ Hmark0).
    simpl. rewrite Hpip. simpl. set_solver. }
  split; [|split; [|split; [|split; [exact Hmarked|split]]]].
  - unfold outcome. rewrite ensure_env_eq. cbv zeta.
    unfold installer_world, after, outcome in *.
    destruct (create_if_missing h (env_dir_of h n) w) as [w0 [[]|e]];
      simpl in *; [|discriminate].
    rewrite (bool_decide_eq_true_2 _ Hm0), (bool_decide_eq_false_2 _ Hmark0).
    simpl. rewrite Hpip. reflexivity.
  - rewrite ensure_env_events, Hcreate, Hev, count_events_app.
    unfold count_events. rewrite creation_events_no_install. reflexivity.
  - apply events_since_app. rewrite ensure_env_trace, Hcreate, Hev.
    reflexivity.
  - apply marked_no_install, Hmarked.
  - intros w' req Hin. apply marked_no_install, Hin.
Qed.

(** C2.  If during [ensure_env n m] the installer runs and exits with a
    non-zero status [rc], the call raises the installer's
    [CalledProcessError] with that status, the marker does not exist
    afterwards, and the next [ensure_env n m] invokes the installer
    again, with the same arguments, as its only tool call. *)
Theorem ensure_env_install_failure
    (h : Host) (n : string) (m : Path) (w : World)
    (args : list string) (rc : Z) :
  In (EvCheckCall args rc)
     (events_since w (after (ensure_env h n (Some m)) w)) ->
  rc ≠ 0 ->
  args = install_args h (env_dir_of h n) m
  ∧ outcome (ensure_env h n (Some m)) w = Raise (CalledProcessError rc args)
  ∧ (marker_of h n ∉ files (after (ensure_env h n (Some m)) w))
  ∧ events_since (after (ensure_env h n (Some m)) w)
      (after (ensure_env h n (Some m)) (after (ensure_env h n (Some m)) w))
    = [EvCheckCall args
         (exit_status h (after (ensure_env h n (Some m)) w) args None)].
Proof.
  intros Hin Hrc.
  rewrite ensure_env_events in Hin. apply in_app_or in Hin as [Hin|Hin].
  { unfold creation_events in Hin. case_bool_decide; simpl in Hin;
      [contradiction | destruct Hin as [Hin|[]]; discriminate]. }
  pose proof (create_if_missing_root h (env_dir_of h n) w) as Hroot.
  pose proof (ensure_env_eq h n (Some m) w) as Heq. cbv zeta in Heq.
  unfold installer_world, install_events, after, outcome in *.
  destruct (create_if_missing h (env_dir_of h n) w) as [w0 [[]|e]];
    simpl in *; [|contradiction].
  specialize (Hroot eq_refl).
  destruct (bool_decide (m ∈ files w0)) eqn:Hm0; simpl in *; [|contradiction].
  destruct (bool_decide (marker_of h n ∈ files w0)) eqn:Hk0; simpl in *;
    [contradiction|].
  destruct Hin as [[= <- <-]|[]].
  apply bool_decide_eq_true_1 in Hm0. apply bool_decide_eq_false_1 in Hk0.
  rewrite (bool_decide_eq_false_2 _ Hrc) in Heq. rewrite Heq. simpl.
  split; [reflexivity|]. split; [reflexivity|]. split; [exact Hk0|].
  apply events_since_app.
  set (w1 := log _ w0).
  change (trace (after (ensure_env h n (Some m)) w1)
          = (trace w1 ++
             [EvCheckCall (install_args h (env_dir_of h n) m)
                (exit_status h w1 (install_args h (env_dir_of h n) m) None)])).
  assert (Hroot1 : env_dir_of h n ∈ files w1) by exact Hroot.
  rewrite ensure_env_trace. unfold installer_world, after, outcome.
  rewrite (create_if_missing_present h _ _ Hroot1). simpl.
  unfold install_events.
  assert (Hm1 : m ∈ files w1) by exact Hm0.
  assert (Hk1 : marker_of h n ∉ files w1) by exact Hk0.
  rewrite (bool_decide_eq_true_2 _ Hm1), (bool_decide_eq_false_2 _ Hk1).
  reflexivity.
Qed.

(** C3.  When a first [ensure_env n] without manifest has succeeded, a
    second one is a no-op: it returns the same directory and leaves the
    world exactly as the first call left it, so the environment
    directory is still present, no file has changed and no tool (no
    subprocess, no environment creation) has been invoked. *)
Theorem ensure_env_idempotent
    (h : Host) (n : string) (w : World) (p : Path) :
  outcome (ensure_env h n None) w = Ok p ->
  p = env_dir_of h n
  ∧ env_dir_of h n ∈ files (after (ensure_env h n None) w)
  ∧ ensure_env h n None (after (ensure_env h n None) w)
    = (after (ensure_env h n None) w, Ok p)
  ∧ events_since (after (ensure_env h n None) w)
      (after (ensure_env h n None) (after (ensure_env h n None) w)) = [].
Proof.
  intros Hok. apply ensure_env_returns in Hok as (-> & _ & Hroot).
  assert (Hsecond : ensure_env h n None (after (ensure_env h n None) w)
                    = (after (ensure_env h n None) w, Ok (env_dir_of h n))).
  { rewrite (ensure_env_eq h n None (after (ensure_env h n None) w)). cbv zeta.
    rewrite (create_if_missing_present h _ _ Hroot). reflexivity. }
  split; [reflexivity|]. split; [exact Hroot|]. split; [exact Hsecond|].
  unfold after at 2. rewrite Hsecond. simpl. apply events_since_refl.
Qed.

(** ** [run], step by step *)

Lemma run_eq (h : Host) (agent_path : string) (command : option Command)
    (w : World) :
  run h agent_path command w
  = match provision h agent_path w with
    | (w1, Raise e) => (w1, Raise e)
    | (w1, Ok env_dir) =>
        let full_cmd := path_str h (_python_executable h env_dir)
                        :: command_args h (resolve h agent_path) command in
        let cwd := path_str h (resolve h agent_path) in
        let rc := exit_status h w1 full_cmd (Some cwd) in
        (log (EvRun full_cmd cwd rc) w1,
         if bool_decide (rc = 0) then Ok (mkCompleted full_cmd rc)
         else Raise (CalledProcessError rc full_cmd))
    end.
Proof.
  unfold run, provision, bind.
  destruct (ensure_env h _ _ w) as [w1 [env_dir|e]]; [|reflexivity].
  unfold subprocess_run. cbv zeta.
  destruct (bool_decide (_ = 0)); reflexivity.
Qed.

Lemma invocations_app (d1 d2 : list Event) :
  invocations (d1 ++ d2) = invocations d1 ++ invocations d2.
Proof. unfold invocations. apply flat_map_app. Qed.

Lemma exit_statuses_app (d1 d2 : list Event) :
  exit_statuses (d1 ++ d2) = exit_statuses d1 ++ exit_statuses d2.
Proof. unfold exit_statuses. apply flat_map_app. Qed.

Lemma ensure_env_no_invocations (h : Host) (n : string)
    (requirements : option Path) (w : World) :
  invocations (events_since w (after (ensure_env h n requirements) w)) = []
  ∧ exit_statuses (events_since w (after (ensure_env h n requirements) w)) = [].
Proof.
  rewrite ensure_env_events, invocations_app, exit_statuses_app.
  assert (Hc : invocations (creation_events h n w) = []
               ∧ exit_statuses (creation_events h n w) = []).
  { unfold creation_events. case_bool_decide; split; reflexivity. }
  assert (Hi : forall w0, invocations (install_events h n requirements w0) = []
               ∧ exit_statuses (install_events h n requirements w0) = []).
  { intros w0. unfold install_events. destruct requirements; [|split; reflexivity].
    destruct (_ && _); split; reflexivity. }
  destruct Hc as [-> ->].
  destruct (outcome (create_if_missing h (env_dir_of h n)) w);
    [destruct (Hi (installer_world h n w)) as [-> ->]|]; split; reflexivity.
Qed.

Lemma ensure_env_trace_extends (h : Host) (n : string)
    (requirements : option Path) (w : World) :
  trace (after (ensure_env h n requirements) w)
  = trace w ++ events_since w (after (ensure_env h n requirements) w).
Proof.
  rewrite ensure_env_events, ensure_env_trace, installer_world_trace, app_assoc.
  reflexivity.
Qed.

(** The tool calls of [run]: those of provisioning, then the agent. *)
Lemma run_events (h : Host) (agent_path : string) (command : option Command)
    (w : World) :
  events_since w (after (run h agent_path command) w)
  = events_since w (after (provision h agent_path) w)
    ++ when_provisioned h agent_path w
         (EvRun (interpreter h agent_path
                 :: command_args h (resolve h agent_path) command)
            (path_str h (resolve h agent_path))
            (exit_status h (after (provision h agent_path) w)
               (interpreter h agent_path
                :: command_args h (resolve h agent_path) command)
               (Some (path_str h (resolve h agent_path))))).
Proof.
  apply events_since_app.
  pose proof (ensure_env_trace_extends h (name (resolve h agent_path))
                (Some (resolve h agent_path </> "requirements.txt")) w) as Hext.
  pose proof (ensure_env_returns h (name (resolve h agent_path))
                (Some (resolve h agent_path </> "requirements.txt")) w) as Hret.
  fold (provision h agent_path) in Hext, Hret.
  unfold when_provisioned, interpreter, after, outcome in *.
  rewrite run_eq.
  destruct (provision h agent_path w) as [w1 [env_dir|e]]; simpl in *.
  - destruct (Hret env_dir eq_refl) as (-> & _ & _).
    rewrite Hext at 1. rewrite <- app_assoc. reflexivity.
  - rewrite app_nil_r. exact Hext.
Qed.

Lemma spawned_by_eq (h : Host) (agent_path : string)
    (command : option Command) (w : World) :
  spawned_by h agent_path command w
  = when_provisioned h agent_path w
      (interpreter h agent_path
       :: command_args h (resolve h agent_path) command,
       path_str h (resolve h agent_path)).
Proof.
  unfold spawned_by. rewrite run_events, invocations_app.
  unfold provision at 1.
  rewrite (proj1 (ensure_env_no_invocations h _ _ w)).
  unfold when_provisioned. destruct (outcome _ w); reflexivity.
Qed.

(** ** The invocation *)

(** C4.  [run p] without a command spawns exactly one process, with the
    argument vector [<environment interpreter> <p>/main.py] and the
    resolved agent directory as working directory; when provisioning
    raises, nothing is spawned. *)
Theorem run_default_invocation (h : Host) (agent_path : string) (w : World) :
  spawned_by h agent_path None w
  = when_provisioned h agent_path w
      ([ interpreter h agent_path;
         path_str h (resolve h agent_path </> "main.py") ],
       path_str h (resolve h agent_path)).
Proof. apply spawned_by_eq. Qed.

(** C5.  A command that is one string or one path gives exactly that
    one token after the interpreter; a sequence gives its elements in
    order, each passed through [str] (strings unchanged).  So
    [run p ["a"; "b"]] spawns [<environment interpreter> a b] in the
    agent directory. *)
Theorem run_command_invocation (h : Host) (agent_path : string) (w : World) :
  (forall s : string,
     spawned_by h agent_path (Some (CmdStr s)) w
     = when_provisioned h agent_path w
         ([ interpreter h agent_path; s ], path_str h (resolve h agent_path)))
  ∧ (forall q : Path,
       spawned_by h agent_path (Some (CmdPath q)) w
       = when_provisioned h agent_path w
           ([ interpreter h agent_path; path_str h q ],
            path_str h (resolve h agent_path)))
  ∧ (forall cs : list Token,
       spawned_by h agent_path (Some (CmdSeq cs)) w
       = when_provisioned h agent_path w
           (interpreter h agent_path :: map (token_str h) cs,
            path_str h (resolve h agent_path)))
  ∧ (forall ss : list string,
       spawned_by h agent_path (Some (CmdSeq (map TStr ss))) w
       = when_provisioned h agent_path w
           (interpreter h agent_path :: ss, path_str h (resolve h agent_path)))
  ∧ spawned_by h agent_path (Some (CmdSeq [TStr "a"; TStr "b"])) w
    = when_provisioned h agent_path w
        ([ interpreter h agent_path; "a"; "b" ],
         path_str h (resolve h agent_path)).
Proof.
  repeat split; intros; rewrite spawned_by_eq; try reflexivity.
  simpl. rewrite map_map. simpl. rewrite map_id. reflexivity.
Qed.

(** C10.  [run p []] spawns the interpreter with no further argument:
    an empty sequence is a command, not a missing one, and the
    argument vector differs from the default one, which names
    [main.py]. *)
Theorem run_empty_command (h : Host) (agent_path : string) (w : World) :
  spawned_by h agent_path (Some (CmdSeq [])) w
  = when_provisioned h agent_path w
      ([ interpreter h agent_path ], path_str h (resolve h agent_path))
  ∧ command_args h (resolve h agent_path) (Some (CmdSeq [])) = []
  ∧ command_args h (resolve h agent_path) None
    = [ path_str h (resolve h agent_path </> "main.py") ]
  ∧ (forall command : option Command,
       command_args h (resolve h agent_path) command
       = [ path_str h (resolve h agent_path </> "main.py") ] ->
       command ≠ Some (CmdSeq [])).
Proof.
  split; [apply spawned_by_eq|]. split; [reflexivity|]. split; [reflexivity|].
  intros command Hargs ->. discriminate.
Qed.

(** ** Errors of [run] *)



(** ** The platform split *)

Lemma path_str_with_os_name (os : string) (h : Host) (p : Path) :
  path_str (with_os_name os h) p = path_str h p.
Proof. reflexivity. Qed.

Section SamePlatformSplit.

Variable h : Host.
Variable os : string.
Hypothesis same_python :
  forall p : Path, _python_executable (with_os_name os h) p = _python_executable h p.

Lemma create_if_missing_with_os_name (env_dir : Path) (w : World) :
  create_if_missing (with_os_name os h) env_dir w = create_if_missing h env_dir w.
Proof.
  unfold create_if_missing, bind, path_exists.
  destruct (negb (bool_decide (env_dir ∈ files w))); [|reflexivity].
  unfold mkdir_parents, venv_create, venv_tree. rewrite same_python. reflexivity.
Qed.

Lemma ensure_env_with_os_name (n : string) (requirements : option Path)
    (w : World) :
  ensure_env (with_os_name os h) n requirements w = ensure_env h n requirements w.
Proof.
  rewrite !ensure_env_eq. cbv zeta.
  change (env_dir_of (with_os_name os h) n) with (env_dir_of h n).
  change (marker_of (with_os_name os h) n) with (marker_of h n).
  rewrite create_if_missing_with_os_name.
  unfold install_args. rewrite same_python. reflexivity.
Qed.

Lemma run_with_os_name (agent_path : string) (command : option Command)
    (w : World) :
  run (with_os_name os h) agent_path command w = run h agent_path command w.
Proof.
  rewrite !run_eq. unfold provision. rewrite ensure_env_with_os_name.
  change (resolve (with_os_name os h)) with (resolve h).
  destruct (ensure_env h _ _ w) as [w1 [env_dir|e]]; [|reflexivity].
  cbv zeta. rewrite same_python.
  assert (Hargs : command_args (with_os_name os h) (resolve h agent_path) command
                  = command_args h (resolve h agent_path) command).
  { destruct command as [[s|q|cs]|]; reflexivity. }
  rewrite Hargs. reflexivity.
Qed.

End SamePlatformSplit.

(** On every platform, [ensure_env] and [run] are the module without
    the platform test, run with that platform's [_python_executable]
    on the host stripped of its [os.name]. *)
Lemma ensure_env_platform_free (h : Host) (os : string) (n : string)
    (requirements : option Path) (w : World) :
  ensure_env (with_os_name os h) n requirements w
  = ensure_env_with (_python_executable (with_os_name os h))
      (with_os_name "" h) n requirements w.
Proof. reflexivity. Qed.

Lemma run_platform_free (h : Host) (os : string) (agent_path : string)
    (command : option Command) (w : World) :
  run (with_os_name os h) agent_path command w
  = run_with (_python_executable (with_os_name os h))
      (with_os_name "" h) agent_path command w.
Proof. reflexivity. Qed.

(** C7.  The interpreter of an environment root is
    [<root>/Scripts/python.exe] when [os.name] is [nt] and
    [<root>/bin/python] on every other platform.  The platform enters
    the module nowhere else: changing [os.name] in a way that leaves
    [_python_executable] as it is leaves [ensure_env] and [run] as they
    are; and on every platform, on either side of the split,
    [ensure_env] and [run] are one and the same program, which has no
    platform test and is given a host without [os.name], run with that
    platform's [_python_executable] as its interpreter locator. *)
Theorem python_executable_platform (h : Host) (env_root : Path) :
  (os_name h = "nt" ->
   _python_executable h env_root = env_root </> "Scripts" </> "python.exe"
   ∧ parts (_python_executable h env_root)
     = parts env_root ++ ["Scripts"; "python.exe"])
  ∧ (os_name h ≠ "nt" ->
     _python_executable h env_root = env_root </> "bin" </> "python"
     ∧ parts (_python_executable h env_root)
       = parts env_root ++ ["bin"; "python"])
  ∧ (forall os : string,
       (forall p : Path,
          _python_executable (with_os_name os h) p = _python_executable h p) ->
       (forall n requirements w,
          ensure_env (with_os_name os h) n requirements w
          = ensure_env h n requirements w)
       ∧ (forall agent_path command w,
            run (with_os_name os h) agent_path command w
            = run h agent_path command w))
  ∧ (forall (os : string) (n : string) (requirements : option Path)
            (w : World),
       ensure_env (with_os_name os h) n requirements w
       = ensure_env_with (_python_executable (with_os_name os h))
           (with_os_name "" h) n requirements w
       ∧ ensure_env h n requirements w
         = ensure_env_with (_python_executable h)
             (with_os_name "" h) n requirements w)
  ∧ (forall (os : string) (agent_path : string) (command : option Command)
            (w : World),
       run (with_os_name os h) agent_path command w
       = run_with (_python_executable (with_os_name os h))
           (with_os_name "" h) agent_path command w
       ∧ run h agent_path command w
         = run_with (_python_executable h)
             (with_os_name "" h) agent_path command w).
Proof.
  split; [|split; [|split; [|split]]];
    [| | |intros; split; [apply ensure_env_platform_free | reflexivity]
         |intros; split; [apply run_platform_free | reflexivity]].
  - intros Hnt. split.
    + unfold _python_executable.
      rewrite (bool_decide_eq_true_2 _ Hnt). reflexivity.
    + rewrite python_executable_parts, (bool_decide_eq_true_2 _ Hnt).
      reflexivity.
  - intros Hother. split.
    + unfold _python_executable.
      rewrite (bool_decide_eq_false_2 _ Hother). reflexivity.
    + rewrite python_executable_parts, (bool_decide_eq_false_2 _ Hother).
      reflexivity.
  - intros os Hsame. split; intros.
    + apply ensure_env_with_os_name, Hsame.
    + apply run_with_os_name, Hsame.
Qed.

(** ** The environment directory and the marker over time *)

Lemma run_mono (h : Host) (agent_path : string) (command : option Command)
    (w : World) :
  files w ⊆ files (after (run h agent_path command) w).
Proof.
  pose proof (ensure_env_mono h (name (resolve h agent_path))
                (Some (resolve h agent_path </> "requirements.txt")) w) as Hmono.
  fold (provision h agent_path) in Hmono.
  unfold after in *. rewrite run_eq.
  destruct (provision h agent_path w) as [w1 [env_dir|e]]; exact Hmono.
Qed.

Lemma ensure_env_creations (h : Host) (n : string)
    (requirements : option Path) (w : World) :
  List.filter is_venv_create
    (events_since w (after (ensure_env h n requirements) w))
  = creation_events h n w.
Proof.
  rewrite ensure_env_events, List.filter_app.
  assert (Hi : List.filter is_venv_create
                 match outcome (create_if_missing h (env_dir_of h n)) w with
                 | Ok _ => install_events h n requirements (installer_world h n w)
                 | Raise _ => []
                 end = []).
  { destruct (outcome _ w); [apply install_events_no_creation | reflexivity]. }
  rewrite Hi, app_nil_r. unfold creation_events.
  case_bool_decide; reflexivity.
Qed.

(** C9.  Whether [ensure_env] creates the environment depends on the
    existence of the root directory and on nothing else: it calls
    [venv.create] once when the root is missing and never when the root
    exists, whatever else does or does not exist under it.  With the
    root present the only path a call can bring into existence is the
    marker, so a missing interpreter stays missing.  Neither
    [ensure_env] nor [run] removes a path: what exists before a call
    exists after it, the root and the marker included.  [run] creates
    the environment under the same condition. *)
Theorem environment_root_is_the_signal
    (h : Host) (n : string) (requirements : option Path) (w : World) :
  List.filter is_venv_create
    (events_since w (after (ensure_env h n requirements) w))
  = (if bool_decide (env_dir_of h n ∈ files w) then []
     else [EvVenvCreate (env_dir_of h n) true
             (venv_outcome h (before_venv (env_dir_of h n) w) (env_dir_of h n))])
  ∧ (env_dir_of h n ∈ files w ->
     files (after (ensure_env h n requirements) w)
       ⊆ files w ∪ {[ marker_of h n ]}
     ∧ (_python_executable h (env_dir_of h n) ∉ files w ->
        _python_executable h (env_dir_of h n)
          ∉ files (after (ensure_env h n requirements) w)))
  ∧ files w ⊆ files (after (ensure_env h n requirements) w)
  ∧ (forall (agent_path : string) (command : option Command),
       files w ⊆ files (after (run h agent_path command) w)
       ∧ count_events is_venv_create
           (events_since w (after (run h agent_path command) w))
         = (if bool_decide
                 (env_dir_of h (name (resolve h agent_path)) ∈ files w)
            then 0 else 1)%nat).
Proof.
  split; [apply ensure_env_creations|].
  split; [|split; [apply ensure_env_mono|]].
  - intros Hroot.
    assert (Hsub : files (after (ensure_env h n requirements) w)
                     ⊆ files w ∪ {[ marker_of h n ]}).
    { unfold after. rewrite ensure_env_eq. cbv zeta.
      rewrite (create_if_missing_present h _ _ Hroot).
      destruct requirements as [req|]; [|set_solver].
      destruct (_ && _); [|set_solver].
      destruct (bool_decide (_ = 0)); simpl; set_solver. }
    split; [exact Hsub|].
    intros Hpy Hin. apply Hsub in Hin.
    apply elem_of_union in Hin as [Hin|Hin]; [exact (Hpy Hin)|].
    apply elem_of_singleton in Hin.
    apply (marker_not_in_venv_tree h (env_dir_of h n)).
    fold (marker_of h n). rewrite <- Hin. unfold venv_tree. set_solver.
  - intros agent_path command. split; [apply run_mono|].
    rewrite run_events, count_events_app.
    unfold count_events at 1, provision.
    rewrite ensure_env_creations. unfold creation_events, when_provisioned.
    case_bool_decide; destruct (outcome _ w); reflexivity.
Qed.

(** ** A manifest that does not exist *)

(** A manifest that is absent when the call is made, and is not one of
    the paths creating the environment brings into existence, is still
    absent when [ensure_env] tests it. *)
Lemma absent_manifest_stays_absent (h : Host) (n : string) (m : Path) (w : World) :
  m ∉ files w ->
  m ∉ lineage (parent (env_dir_of h n)) ->
  m ∉ venv_tree h (env_dir_of h n) ->
  m ∉ files (installer_world h n w).
Proof.
  intros Hw Hl Hv. unfold installer_world, after.
  destruct (decide (env_dir_of h n ∈ files w)) as [Hin|Hout].
  - rewrite (create_if_missing_present h _ _ Hin). exact Hw.
  - rewrite (create_if_missing_absent h _ _ Hout).
    unfold venv_create, before_venv.
    assert (Hr : m ≠ env_dir_of h n)
      by (intros ->; apply Hv; unfold venv_tree; set_solver).
    destruct (venv_outcome h _ _) as [|[|]]; simpl;
      rewrite ?elem_of_union, ?elem_of_list_to_set, ?elem_of_singleton;
      intuition (try set_solver).
Qed.

(** C6, as the code has it.  When the manifest does not exist at the
    moment [ensure_env] tests it, that is once the environment
    directory has been created if it was missing, the call does what a
    call without manifest does: no installer runs and the marker is
    neither created nor removed; a missing environment is created, by
    one [venv.create], and when that creation succeeds the call returns
    the environment directory, which then exists. *)
Theorem ensure_env_absent_manifest
    (h : Host) (n : string) (m : Path) (w : World) :
  m ∉ files (installer_world h n w) ->
  ensure_env h n (Some m) w = ensure_env h n None w
  ∧ count_events is_install
      (events_since w (after (ensure_env h n (Some m)) w)) = 0%nat
  ∧ events_since w (after (ensure_env h n (Some m)) w) = creation_events h n w
  ∧ (marker_of h n ∈ files (after (ensure_env h n (Some m)) w)
     <-> marker_of h n ∈ files w)
  ∧ (outcome (create_if_missing h (env_dir_of h n)) w = Ok tt ->
     outcome (ensure_env h n (Some m)) w = Ok (env_dir_of h n)
     ∧ env_dir_of h n ∈ files (after (ensure_env h n (Some m)) w)).
Proof.
  intros Habs.
  assert (Hev : events_since w (after (ensure_env h n (Some m)) w)
                = creation_events h n w).
  { rewrite ensure_env_events. unfold install_events.
    rewrite (bool_decide_eq_false_2 _ Habs). simpl.
    destruct (outcome _ w); apply app_nil_r. }
  assert (Heq : ensure_env h n (Some m) w = ensure_env h n None w).
  { rewrite !ensure_env_eq. cbv zeta. unfold installer_world, after in Habs.
    destruct (create_if_missing h (env_dir_of h n) w) as [w0 [[]|e]];
      [|reflexivity].
    simpl in Habs. rewrite (bool_decide_eq_false_2 _ Habs). reflexivity. }
  split; [exact Heq|]. split; [|split; [exact Hev|split]].
  - rewrite Hev. unfold count_events.
    rewrite creation_events_no_install. reflexivity.
  - unfold after. rewrite Heq, ensure_env_eq. cbv zeta.
    pose proof (create_if_missing_marker h (env_dir_of h n) w) as Hmk.
    unfold after in Hmk. fold (marker_of h n) in Hmk.
    destruct (create_if_missing h (env_dir_of h n) w) as [w0 [[]|e]];
      exact Hmk.
  - intros Hok. unfold outcome, after in *. rewrite Heq, ensure_env_eq. cbv zeta.
    pose proof (create_if_missing_root h (env_dir_of h n) w) as Hroot.
    unfold outcome, after in Hroot.
    destruct (create_if_missing h (env_dir_of h n) w) as [w0 [[]|e]];
      simpl in *; [|discriminate].
    split; [reflexivity | exact (Hroot eq_refl)].
Qed.

(** * The model at work *)

Ltac holds_by_computation :=
  first [ apply (bool_decide_unpack _); vm_compute; exact I
        | apply (proj1 (bool_decide_eq_false _)); vm_compute; reflexivity ].

Example posix_first_run :
  trace (after (run Demo.posix "demo" None) Demo.with_manifest)
  = [ EvVenvCreate (mkPath "/" ["home"; "u"; ".agents"; "demo"]) true VenvBuilt;
      EvCheckCall ["/home/u/.agents/demo/bin/python"; "-m"; "pip"; "install";
                   "-r"; "/srv/demo/requirements.txt"] 0;
      EvRun ["/home/u/.agents/demo/bin/python"; "/srv/demo/main.py"]
            "/srv/demo" 0 ].
Proof. vm_compute. reflexivity. Qed.

Example windows_run_without_manifest :
  trace (after (run Demo.windows "demo" (Some (CmdStr "serve"))) Demo.empty)
  = [ EvVenvCreate (mkPath "C:\" ["Users"; "u"; ".agents"; "demo"]) true VenvBuilt;
      EvRun ["C:\Users\u\.agents\demo\Scripts\python.exe"; "serve"]
            "C:\srv\demo" 0 ].
Proof. vm_compute. reflexivity. Qed.

Example broken_environment_is_kept :
  outcome (ensure_env Demo.broken "demo" None) Demo.empty
  = Raise (VenvError (mkPath "/" ["home"; "u"; ".agents"; "demo"]))
  ∧ ensure_env Demo.broken "demo" None
      (after (ensure_env Demo.broken "demo" None) Demo.empty)
    = (after (ensure_env Demo.broken "demo" None) Demo.empty,
       Ok (mkPath "/" ["home"; "u"; ".agents"; "demo"])).
Proof. split; vm_compute; reflexivity. Qed.

(** A failed install is tried again by the next call; once it has
    succeeded, later calls skip it. *)
Example flaky_install_is_retried :
  let call := ensure_env Demo.flaky "demo" (Some Demo.manifest) in
  let w1 := after call Demo.with_manifest in
  let w2 := after call w1 in
  let w3 := after call w2 in
  let pip := ["/home/u/.agents/demo/bin/python"; "-m"; "pip"; "install"; "-r";
              "/srv/demo/requirements.txt"] in
  events_since w1 w2 = [EvCheckCall pip 0]
  ∧ bool_decide (marker_of Demo.flaky "demo" ∈ files w1) = false
  ∧ bool_decide (marker_of Demo.flaky "demo" ∈ files w2) = true
  ∧ events_since w2 w3 = [].
Proof. repeat split; vm_compute; reflexivity. Qed.

(** Two platforms on the same side of the split behave alike. *)
Example posix_and_java_agree (p : Path) :
  _python_executable (with_os_name "java" Demo.posix) p
  = _python_executable Demo.posix p.
Proof. reflexivity. Qed.

Example posix_and_nt_differ :
  _python_executable (with_os_name "nt" Demo.posix) Demo.home_dir
  ≠ _python_executable Demo.posix Demo.home_dir.
Proof. vm_compute. discriminate. Qed.

Lemma ensure_env_installs_once_witness :
  Demo.manifest ∈ files Demo.with_manifest
  ∧ (marker_of Demo.posix "demo" ∉ files Demo.with_manifest)
  ∧ outcome (ensure_env Demo.posix "demo" (Some Demo.manifest)) Demo.with_manifest
    = Ok (env_dir_of Demo.posix "demo")
  ∧ count_events is_install
      (events_since Demo.with_manifest
         (after (ensure_env Demo.posix "demo" (Some Demo.manifest))
            Demo.with_manifest)) = 1%nat
  ∧ marker_of Demo.posix "demo"
      ∈ files (after (ensure_env Demo.posix "demo" (Some Demo.manifest))
                 Demo.with_manifest).
Proof.
  assert (H1 : Demo.manifest ∈ files Demo.with_manifest)
    by holds_by_computation.
  assert (H2 : marker_of Demo.posix "demo" ∉ files Demo.with_manifest)
    by holds_by_computation.
  assert (H3 : outcome (create_if_missing Demo.posix (env_dir_of Demo.posix "demo"))
                 Demo.with_manifest = Ok tt)
    by (vm_compute; reflexivity).
  assert (H4 : exit_status Demo.posix (installer_world Demo.posix "demo" Demo.with_manifest)
                 (install_args Demo.posix (env_dir_of Demo.posix "demo") Demo.manifest)
                 None = 0)
    by reflexivity.
  destruct (ensure_env_installs_once Demo.posix "demo" Demo.manifest
              Demo.with_manifest H1 H2 H3 H4) as (Hout & Hcount & _ & Hmark & _).
  repeat split; assumption.
Defined.

Lemma ensure_env_install_failure_witness :
  outcome (ensure_env Demo.flaky "demo" (Some Demo.manifest)) Demo.with_manifest
  = Raise (CalledProcessError 1
             ["/home/u/.agents/demo/bin/python"; "-m"; "pip"; "install"; "-r";
              "/srv/demo/requirements.txt"])
  ∧ (marker_of Demo.flaky "demo"
       ∉ files (after (ensure_env Demo.flaky "demo" (Some Demo.manifest))
                  Demo.with_manifest)).
Proof.
  assert (H1 : In (EvCheckCall
                     ["/home/u/.agents/demo/bin/python"; "-m"; "pip"; "install";
                      "-r"; "/srv/demo/requirements.txt"] 1)
                  (events_since Demo.with_manifest
                     (after (ensure_env Demo.flaky "demo" (Some Demo.manifest))
                        Demo.with_manifest)))
    by (vm_compute; right; left; reflexivity).
  assert (H2 : (1 ≠ 0)%Z) by lia.
  destruct (ensure_env_install_failure Demo.flaky "demo" Demo.manifest
              Demo.with_manifest _ 1 H1 H2) as (_ & Hout & Hmark & _).
  split; assumption.
Defined.

Lemma ensure_env_idempotent_witness :
  outcome (ensure_env Demo.posix "demo" None) Demo.empty
  = Ok (mkPath "/" ["home"; "u"; ".agents"; "demo"])
  ∧ events_since (after (ensure_env Demo.posix "demo" None) Demo.empty)
      (after (ensure_env Demo.posix "demo" None)
         (after (ensure_env Demo.posix "demo" None) Demo.empty)) = [].
Proof.
  assert (H1 : outcome (ensure_env Demo.posix "demo" None) Demo.empty
               = Ok (mkPath "/" ["home"; "u"; ".agents"; "demo"]))
    by (vm_compute; reflexivity).
  destruct (ensure_env_idempotent Demo.posix "demo" Demo.empty _ H1)
    as (_ & _ & _ & Hev).
  split; assumption.
Defined.

(** The manifest path is the environment directory itself: absent when
    the call is made, it exists once the environment has been created,
    and the installer is run on it. *)
Lemma ensure_env_absent_manifest_counterexample :
  (env_dir_of Demo.flaky "demo" ∉ files Demo.empty)
  ∧ events_since Demo.empty
      (after (ensure_env Demo.flaky "demo" (Some (env_dir_of Demo.flaky "demo")))
         Demo.empty)
    = [ EvVenvCreate (mkPath "/" ["home"; "u"; ".agents"; "demo"]) true VenvBuilt;
        EvCheckCall ["/home/u/.agents/demo/bin/python"; "-m"; "pip"; "install";
                     "-r"; "/home/u/.agents/demo"] 1 ]
  ∧ count_events is_install
      (events_since Demo.empty
         (after (ensure_env Demo.flaky "demo" (Some (env_dir_of Demo.flaky "demo")))
            Demo.empty)) = 1%nat
  ∧ outcome (ensure_env Demo.flaky "demo" (Some (env_dir_of Demo.flaky "demo")))
      Demo.empty
    = Raise (CalledProcessError 1
               ["/home/u/.agents/demo/bin/python"; "-m"; "pip"; "install"; "-r";
                "/home/u/.agents/demo"]).
Proof.
  split; [holds_by_computation|].
  repeat split; vm_compute; reflexivity.
Qed.

(** The same with a file that [venv.create] lays out: absent when the
    call is made, present when the manifest is tested. *)
Example manifest_made_by_venv :
  bool_decide (env_dir_of Demo.posix "demo" </> "pyvenv.cfg" ∈ files Demo.empty)
  = false
  ∧ bool_decide (env_dir_of Demo.posix "demo" </> "pyvenv.cfg"
                   ∈ files (installer_world Demo.posix "demo" Demo.empty))
    = true
  ∧ events_since Demo.empty
      (after (ensure_env Demo.posix "demo"
                (Some (env_dir_of Demo.posix "demo" </> "pyvenv.cfg")))
         Demo.empty)
    = [ EvVenvCreate (mkPath "/" ["home"; "u"; ".agents"; "demo"]) true VenvBuilt;
        EvCheckCall ["/home/u/.agents/demo/bin/python"; "-m"; "pip"; "install";
                     "-r"; "/home/u/.agents/demo/pyvenv.cfg"] 0 ].
Proof. repeat split; vm_compute; reflexivity. Qed.

Lemma ensure_env_absent_manifest_witness :
  (Demo.manifest ∉ files (installer_world Demo.posix "demo" Demo.empty))
  ∧ ensure_env Demo.posix "demo" (Some Demo.manifest) Demo.empty
    = ensure_env Demo.posix "demo" None Demo.empty
  ∧ outcome (ensure_env Demo.posix "demo" (Some Demo.manifest)) Demo.empty
    = Ok (env_dir_of Demo.posix "demo").
Proof.
  assert (H1 : Demo.manifest ∉ files (installer_world Demo.posix "demo" Demo.empty))
    by holds_by_computation.
  destruct (ensure_env_absent_manifest Demo.posix "demo" Demo.manifest
              Demo.empty H1) as (Heq & _ & _ & _ & Hret).
  split; [exact H1|]. split; [exact Heq|].
  apply Hret. vm_compute. reflexivity.
Defined.

(** * Further properties of [ensure_env] and [run] *)

(** ** Path arithmetic for environments *)




(** ** The quick path *)

Lemma ensure_env_quick (h : Host) (n : string) (requirements : option Path)
    (w : World) :
  env_dir_of h n ∈ files w ->
  install_due h n requirements w = false ->
  ensure_env h n requirements w = (w, Ok (env_dir_of h n)).
Proof.
  intros Hroot Hdue. rewrite ensure_env_eq. cbv zeta.
  rewrite (create_if_missing_present h _ _ Hroot).
  destruct requirements as [req|]; [|reflexivity].
  simpl in Hdue. rewrite Hdue. reflexivity.
Qed.

Lemma install_events_due (h : Host) (n : string) (requirements : option Path)
    (w0 : World) :
  install_due h n requirements w0 = false ->
  install_events h n requirements w0 = [].
Proof.
  intros Hdue. unfold install_events. destruct requirements as [req|];
    [|reflexivity].
  simpl in Hdue. rewrite Hdue. reflexivity.
Qed.

Lemma install_events_not_due (h : Host) (n : string)
    (requirements : option Path) (w0 : World) :
  install_events h n requirements w0 = [] ->
  install_due h n requirements w0 = false.
Proof.
  unfold install_events, install_due. destruct requirements as [req|];
    [|reflexivity].
  destruct (_ && _); [discriminate | reflexivity].
Qed.

(** After a call that returned, no install is due. *)
Lemma ensure_env_settles (h : Host) (n : string) (requirements : option Path)
    (w : World) (p : Path) :
  outcome (ensure_env h n requirements) w = Ok p ->
  install_due h n requirements (after (ensure_env h n requirements) w) = false.
Proof.
  unfold outcome, after. rewrite ensure_env_eq. cbv zeta.
  destruct (create_if_missing h (env_dir_of h n) w) as [w0 [[]|e]];
    [|discriminate].
  destruct requirements as [req|]; [|reflexivity].
  destruct (bool_decide (req ∈ files w0) && _) eqn:Hdue; [|intros _; exact Hdue].
  destruct (bool_decide (_ = 0)); [|discriminate].
  intros _. simpl.
  rewrite (bool_decide_eq_true_2 (marker_of h n ∈ _)) by set_solver.
  apply andb_false_r.
Qed.

(** X1.  [ensure_env] leaves the world exactly as it found it, and
    returns the environment directory, if and only if the root
    directory exists and no install is due (no manifest given, or the
    manifest is missing, or the marker exists). *)
Theorem ensure_env_noop_iff (h : Host) (n : string)
    (requirements : option Path) (w : World) :
  ensure_env h n requirements w = (w, Ok (env_dir_of h n))
  <-> env_dir_of h n ∈ files w ∧ install_due h n requirements w = false.
Proof.
  split; [|intros [Hroot Hdue]; apply ensure_env_quick; assumption].
  intros Heq.
  assert (Hout : outcome (ensure_env h n requirements) w = Ok (env_dir_of h n))
    by (unfold outcome; rewrite Heq; reflexivity).
  assert (Haft : after (ensure_env h n requirements) w = w)
    by (unfold after; rewrite Heq; reflexivity).
  destruct (ensure_env_returns h n requirements w _ Hout) as (_ & Hcreate & Hroot).
  rewrite Haft in Hroot. split; [exact Hroot|].
  pose proof (ensure_env_trace h n requirements w) as Htr.
  rewrite Haft, Hcreate in Htr. unfold installer_world, after in Htr.
  rewrite (create_if_missing_present h _ _ Hroot) in Htr. simpl in Htr.
  apply install_events_not_due.
  rewrite <- (app_nil_r (trace w)) in Htr at 1.
  apply app_inv_head in Htr. symmetry. exact Htr.
Qed.

(** X2.  A call that returned can be repeated with the same arguments
    at no cost: the repeated call returns the same directory and
    changes nothing, with or without a manifest. *)
Theorem ensure_env_repeat (h : Host) (n : string)
    (requirements : option Path) (w : World) (p : Path) :
  outcome (ensure_env h n requirements) w = Ok p ->
  ensure_env h n requirements (after (ensure_env h n requirements) w)
  = (after (ensure_env h n requirements) w, Ok p).
Proof.
  intros Hok.
  pose proof (ensure_env_settles h n requirements w p Hok) as Hdue.
  apply ensure_env_returns in Hok as (-> & _ & Hroot).
  apply ensure_env_quick; assumption.
Qed.

(** ** When creating the environment fails *)

(** X3.  When [venv.create] raises during [ensure_env], the call
    raises that error: creating the environment was its only tool
    call, so no installer runs even though a manifest may exist, and
    the marker is as it was before the call. *)
Theorem ensure_env_creation_failure (h : Host) (n : string)
    (requirements : option Path) (w : World) (left_behind : bool) :
  In (EvVenvCreate (env_dir_of h n) true (VenvBroken left_behind))
     (events_since w (after (ensure_env h n requirements) w)) ->
  (env_dir_of h n ∉ files w)
  ∧ outcome (ensure_env h n requirements) w = Raise (VenvError (env_dir_of h n))
  ∧ events_since w (after (ensure_env h n requirements) w)
    = [EvVenvCreate (env_dir_of h n) true (VenvBroken left_behind)]
  ∧ count_events is_install
      (events_since w (after (ensure_env h n requirements) w)) = 0%nat
  ∧ (marker_of h n ∈ files (after (ensure_env h n requirements) w)
     <-> marker_of h n ∈ files w).
Proof.
  intros Hin. rewrite ensure_env_events in Hin.
  apply in_app_or in Hin as [Hin|Hin].
  2: { destruct (outcome (create_if_missing h (env_dir_of h n)) w);
         [|destruct Hin].
       unfold install_events in Hin.
       destruct requirements as [m|]; [|destruct Hin].
       destruct (_ && _); [|destruct Hin].
       destruct Hin as [Hin|[]]. discriminate. }
  unfold creation_events in Hin. case_bool_decide as Hroot; [destruct Hin|].
  destruct Hin as [[= Ho]|[]].
  assert (Hc : create_if_missing h (env_dir_of h n) w
               = (add_files (if left_behind then {[ env_dir_of h n ]} else ∅)
                    (log (EvVenvCreate (env_dir_of h n) true
                            (VenvBroken left_behind))
                       (before_venv (env_dir_of h n) w)),
                  Raise (VenvError (env_dir_of h n)))).
  { rewrite (create_if_missing_absent h _ _ Hroot). unfold venv_create.
    rewrite Ho. reflexivity. }
  assert (Hev : events_since w (after (ensure_env h n requirements) w)
                = [EvVenvCreate (env_dir_of h n) true (VenvBroken left_behind)]).
  { rewrite ensure_env_events. unfold creation_events, outcome.
    rewrite (bool_decide_eq_false_2 _ Hroot), Hc, Ho. reflexivity. }
  split; [exact Hroot|]. split; [|split; [exact Hev|split]].
  - unfold outcome. rewrite ensure_env_eq. cbv zeta. rewrite Hc. reflexivity.
  - rewrite Hev. reflexivity.
  - pose proof (create_if_missing_marker h (env_dir_of h n) w) as Hmk.
    fold (marker_of h n) in Hmk. unfold after in *.
    rewrite ensure_env_eq. cbv zeta. rewrite Hc in *. exact Hmk.
Qed.

(** ** The marker tells the truth *)

(** X4.  After a call the marker exists exactly when it existed before
    or the installer ran in this call and exited with status 0: the
    marker is never written without a successful install, and a
    successful install always writes it. *)
Theorem marker_iff_installed (h : Host) (n : string)
    (requirements : option Path) (w : World) :
  marker_of h n ∈ files (after (ensure_env h n requirements) w)
  <-> marker_of h n ∈ files w
      ∨ exists m : Path,
          requirements = Some m
          ∧ In (EvCheckCall (install_args h (env_dir_of h n) m) 0)
               (events_since w (after (ensure_env h n requirements) w)).
Proof.
  pose proof (ensure_env_events h n requirements w) as Hev.
  pose proof (create_if_missing_marker h (env_dir_of h n) w) as Hmk.
  fold (marker_of h n) in Hmk.
  assert (Hnc : forall args rc, ~ In (EvCheckCall args rc) (creation_events h n w)).
  { intros args rc. unfold creation_events. case_bool_decide; simpl;
      [tauto | intros [?|[]]; discriminate]. }
  unfold installer_world, install_events, outcome, after in *.
  rewrite ensure_env_eq in *. cbv zeta in *.
  destruct (create_if_missing h (env_dir_of h n) w) as [w0 [[]|e]]; simpl in *.
  - destruct requirements as [m|].
    + destruct (bool_decide (m ∈ files w0)) eqn:Hm; simpl in *.
      * destruct (bool_decide (marker_of h n ∈ files w0)) eqn:Hk; simpl in *.
        -- rewrite Hev, app_nil_r. split; [tauto|].
           intros [Hw|(m' & _ & Hin)]; [tauto | destruct (Hnc _ _ Hin)].
        -- apply bool_decide_eq_false_1 in Hk.
           case_bool_decide as Hrc; simpl in *; rewrite Hev.
           ++ split; [|intros _; apply elem_of_union_r, elem_of_singleton;
                        reflexivity].
              intros _. right. exists m.
              split; [reflexivity|]. apply in_or_app. right. left.
              rewrite Hrc. reflexivity.
           ++ split; [tauto|].
              intros [Hw|(m' & [= <-] & Hin)]; [tauto|].
              apply in_app_or in Hin as [Hin|[[= Hz]|[]]];
                [destruct (Hnc _ _ Hin) | contradiction].
      * rewrite Hev, app_nil_r. split; [tauto|].
        intros [Hw|(m' & _ & Hin)]; [tauto | destruct (Hnc _ _ Hin)].
    + rewrite Hev, app_nil_r. split; [tauto|].
      intros [Hw|(m' & [=] & _)]. tauto.
  - rewrite Hev, app_nil_r. split; [tauto|].
    intros [Hw|(m' & _ & Hin)]; [tauto | destruct (Hnc _ _ Hin)].
Qed.

(** ** Warm runs *)

Lemma run_quick (h : Host) (agent_path : string) (command : option Command)
    (w : World) :
  env_dir_of h (name (resolve h agent_path)) ∈ files w ->
  install_due h (name (resolve h agent_path))
    (Some (manifest_of h agent_path)) w = false ->
  run h agent_path command w
  = subprocess_run h
      (interpreter h agent_path :: command_args h (resolve h agent_path) command)
      (path_str h (resolve h agent_path)) true w.
Proof.
  intros Hroot Hdue. rewrite run_eq. unfold provision.
  fold (manifest_of h agent_path).
  rewrite (ensure_env_quick h _ _ w Hroot Hdue). cbv zeta.
  unfold subprocess_run, interpreter.
  destruct (bool_decide (_ = 0)); reflexivity.
Qed.

Lemma subprocess_run_world (h : Host) (args : list string) (cwd : string)
    (check : bool) (w : World) :
  after (subprocess_run h args cwd check) w
  = log (EvRun args cwd (exit_status h w args (Some cwd))) w.
Proof.
  unfold after, subprocess_run. destruct (_ && _); reflexivity.
Qed.

(** X7.  With the environment root in place and no install due (the
    agent has no manifest, or the marker exists), [run] makes one tool
    call, the agent process, and changes no file. *)
Theorem run_warm (h : Host) (agent_path : string) (command : option Command)
    (w : World) :
  env_dir_of h (name (resolve h agent_path)) ∈ files w ->
  install_due h (name (resolve h agent_path))
    (Some (manifest_of h agent_path)) w = false ->
  events_since w (after (run h agent_path command) w)
  = [EvRun (interpreter h agent_path
            :: command_args h (resolve h agent_path) command)
       (path_str h (resolve h agent_path))
       (exit_status h w
          (interpreter h agent_path
           :: command_args h (resolve h agent_path) command)
          (Some (path_str h (resolve h agent_path))))]
  ∧ files (after (run h agent_path command) w) = files w.
Proof.
  intros Hroot Hdue. unfold after.
  rewrite (run_quick h agent_path command w Hroot Hdue).
  fold (after (subprocess_run h
                 (interpreter h agent_path
                  :: command_args h (resolve h agent_path) command)
                 (path_str h (resolve h agent_path)) true) w).
  rewrite subprocess_run_world. split; [|reflexivity].
  apply events_since_app. reflexivity.
Qed.

(** ** Environments are keyed by the directory name alone *)

(** X9.  Two agent directories with the same final name share one
    environment: the same root, interpreter and marker.  So when the
    marker is there, from the first agent's install, [run] on the
    second never invokes the installer, even if the second agent has a
    manifest of its own. *)
Theorem same_name_same_environment (h : Host) (p1 p2 : string)
    (command : option Command) (w : World) :
  name (resolve h p1) = name (resolve h p2) ->
  marker_of h (name (resolve h p1)) ∈ files w ->
  interpreter h p2 = interpreter h p1
  ∧ marker_of h (name (resolve h p2)) = marker_of h (name (resolve h p1))
  ∧ count_events is_install
      (events_since w (after (run h p2 command) w)) = 0%nat.
Proof.
  intros Hname Hmark.
  assert (Hcount : count_events is_install
            (events_since w (after (run h p2 command) w)) = 0%nat).
  { rewrite run_events, count_events_app. unfold provision.
    rewrite marked_no_install by (rewrite <- Hname; exact Hmark).
    unfold when_provisioned. destruct (outcome _ w); reflexivity. }
  split; [unfold interpreter; rewrite Hname; reflexivity|].
  split; [rewrite Hname; reflexivity|].
  exact Hcount.
Qed.

(** ** Directories made on the way *)

Lemma ancestors_made (h : Host) (n : string) (w : World) (q : Path) :
  env_dir_of h n ∉ files w ->
  q ∈ lineage (parent (env_dir_of h n)) ->
  q ∈ files (installer_world h n w).
Proof.
  intros Hout Hq. unfold installer_world, after.
  rewrite (create_if_missing_absent h _ _ Hout).
  assert (Hb : q ∈ files (before_venv (env_dir_of h n) w)).
  { unfold before_venv. simpl. apply elem_of_union_r, elem_of_list_to_set, Hq. }
  unfold venv_create.
  destruct (venv_outcome h _ _); simpl; apply elem_of_union_l, Hb.
Qed.

Lemma installer_world_below (h : Host) (n : string)
    (requirements : option Path) (w : World) :
  files (installer_world h n w)
    ⊆ files (after (ensure_env h n requirements) w).
Proof.
  unfold installer_world, after. rewrite ensure_env_eq. cbv zeta.
  destruct (create_if_missing h (env_dir_of h n) w) as [w0 [[]|e]];
    simpl; [|reflexivity].
  destruct requirements as [m|]; [|reflexivity].
  destruct (_ && _); [|reflexivity].
  destruct (bool_decide (_ = 0)); simpl; [|reflexivity].
  intros q Hq. apply elem_of_union_l, Hq.
Qed.

(** X10.  When the environment root is missing, its parent directory
    and every ancestor of it exist after the call, whether
    [venv.create] then succeeds or raises: the directories are made
    before the environment is. *)
Theorem ancestors_exist_after_call (h : Host) (n : string)
    (requirements : option Path) (w : World) :
  env_dir_of h n ∉ files w ->
  parent (env_dir_of h n) ∈ files (after (ensure_env h n requirements) w)
  ∧ (forall q : Path,
       q ∈ lineage (parent (env_dir_of h n)) ->
       q ∈ files (after (ensure_env h n requirements) w)).
Proof.
  intros Hout.
  assert (Hall : forall q : Path,
            q ∈ lineage (parent (env_dir_of h n)) ->
            q ∈ files (after (ensure_env h n requirements) w)).
  { intros q Hq. apply installer_world_below, ancestors_made; assumption. }
  split; [apply Hall, lineage_self | exact Hall].
Qed.

(** ** An agent at the root of the file system *)


(** ** The tool calls of a run *)

(** The cases of one [run]: what it calls and how it ends. *)
Lemma run_cases (h : Host) (agent_path : string) (command : option Command)
    (w : World) :
  exists (cr ins sp : list Event),
    tool_calls h agent_path command w = cr ++ ins ++ sp
    ∧ (cr = [] ∨ exists o, cr = [EvVenvCreate
                                   (env_dir_of h (name (resolve h agent_path)))
                                   true o])
    ∧ (ins = [] ∨ exists rc, ins = [EvCheckCall
                                      (install_args h
                                         (env_dir_of h (name (resolve h agent_path)))
                                         (manifest_of h agent_path)) rc])
    ∧ (sp = [] ∨ exists rc, sp = [EvRun
                                    (interpreter h agent_path
                                     :: command_args h (resolve h agent_path) command)
                                    (path_str h (resolve h agent_path)) rc])
    ∧ (forallb step_ok cr = false -> ins = [] ∧ sp = [])
    ∧ (forallb step_ok ins = false -> sp = [])
    ∧ (if forallb step_ok (cr ++ ins ++ sp)
       then exists cp, outcome (run h agent_path command) w = Ok cp
       else exists x, outcome (run h agent_path command) w = Raise x).
Proof.
  unfold tool_calls. rewrite run_events.
  unfold when_provisioned, outcome. rewrite run_eq.
  unfold provision. fold (manifest_of h agent_path).
  rewrite ensure_env_events.
  unfold creation_events, installer_world, install_events, outcome, after.
  rewrite ensure_env_eq. cbv zeta.
  unfold interpreter.
  set (n := name (resolve h agent_path)).
  set (m := manifest_of h agent_path).
  set (cwd := path_str h (resolve h agent_path)).
  destruct (decide (env_dir_of h n ∈ files w)) as [Hin|Hout].
  - rewrite (bool_decide_eq_true_2 _ Hin).
    rewrite (create_if_missing_present h _ _ Hin). cbn [fst snd].
    destruct (bool_decide (m ∈ files w) && negb (bool_decide (marker_of h n ∈ files w))).
    + destruct (bool_decide (exit_status h w (install_args h (env_dir_of h n) m) None = 0))
        eqn:Hrc; cbn [fst snd].
      * eexists [], [_], [_]. rewrite <- app_assoc.
        split; [reflexivity|]. split; [auto|]. split; [eauto|]. split; [eauto|].
        cbn. rewrite Hrc. cbn.
        split; [discriminate|]. split; [discriminate|].
        rewrite andb_true_r.
        try clear Hrc.
        destruct (bool_decide (_ = 0)); cbv beta iota; eexists; reflexivity.
      * eexists [], [_], []. rewrite app_nil_r.
        split; [reflexivity|]. split; [auto|]. split; [eauto|]. split; [auto|].
        cbn. rewrite Hrc. cbn. split; [discriminate|]. split; [auto|]. eauto.
    + cbn [fst snd]. eexists [], [], [_].
      split; [reflexivity|]. split; [auto|]. split; [auto|]. split; [eauto|].
      cbn. split; [discriminate|]. split; [discriminate|].
      rewrite andb_true_r.
        try clear Hrc.
        destruct (bool_decide (_ = 0)); cbv beta iota; eexists; reflexivity.
  - rewrite (bool_decide_eq_false_2 _ Hout).
    rewrite (create_if_missing_absent h _ _ Hout). unfold venv_create.
    destruct (venv_outcome h (before_venv (env_dir_of h n) w) (env_dir_of h n))
      as [|left_behind]; cbn [fst snd].
    + set (w0 := add_files _ _).
      destruct (bool_decide (m ∈ files w0) && negb (bool_decide (marker_of h n ∈ files w0))).
      * destruct (bool_decide (exit_status h w0 (install_args h (env_dir_of h n) m) None = 0))
          eqn:Hrc; cbn [fst snd].
        -- eexists [_], [_], [_]. rewrite <- !app_assoc.
           split; [reflexivity|]. split; [eauto|]. split; [eauto|]. split; [eauto|].
           cbn. rewrite Hrc. cbn.
           split; [discriminate|]. split; [discriminate|].
           rewrite andb_true_r.
        try clear Hrc.
        destruct (bool_decide (_ = 0)); cbv beta iota; eexists; reflexivity.
        -- eexists [_], [_], []. rewrite app_nil_r.
           split; [reflexivity|]. split; [eauto|]. split; [eauto|]. split; [auto|].
           cbn. rewrite Hrc. cbn. split; [discriminate|]. split; [auto|]. eauto.
      * cbn [fst snd]. eexists [_], [], [_]. rewrite app_nil_r.
        split; [reflexivity|]. split; [eauto|]. split; [auto|]. split; [eauto|].
        cbn. split; [discriminate|]. split; [discriminate|].
        rewrite andb_true_r.
        try clear Hrc.
        destruct (bool_decide (_ = 0)); cbv beta iota; eexists; reflexivity.
    + eexists [_], [], []. rewrite !app_nil_r.
      split; [reflexivity|]. split; [eauto|]. split; [auto|]. split; [auto|].
      cbn. split; [auto|]. split; [auto|]. eauto.
Qed.

(** Three stages of at most one step each, where a failed step leaves
    the later stages empty: a failed step is the last one. *)
Lemma failed_step_is_last {A} (ok : A -> bool) (cr ins sp : list A) :
  (length cr <= 1)%nat -> (length ins <= 1)%nat -> (length sp <= 1)%nat ->
  (forallb ok cr = false -> ins = [] ∧ sp = []) ->
  (forallb ok ins = false -> sp = []) ->
  (forall e, In e (cr ++ ins ++ sp) -> ok e = false ->
             last (cr ++ ins ++ sp) = Some e)
  ∧ (forallb ok (cr ++ ins ++ sp) = false
     <-> exists e, last (cr ++ ins ++ sp) = Some e ∧ ok e = false).
Proof.
  intros Hcr Hins Hsp H1 H2.
  destruct cr as [|e1 [|? ?]]; simpl in Hcr; [| |lia];
  destruct ins as [|e2 [|? ?]]; simpl in Hins; [| |lia| | |lia];
  destruct sp as [|e3 [|? ?]]; simpl in Hsp; try lia; simpl in *.
  all: try destruct (ok e1) eqn:He1; try destruct (ok e2) eqn:He2;
       try destruct (ok e3) eqn:He3; simpl in *.
  all: try (destruct (H1 eq_refl); discriminate).
  all: try (specialize (H2 eq_refl); discriminate).
  all: split; [intros e Hin Hbad | split; [intros Hf | intros (e & Hl & Hbad)]].
  all: try discriminate.
  all: try reflexivity.
  all: try (injection Hl as <-; congruence).
  all: try (eexists; split; [reflexivity | assumption]).
  all: try (intuition (subst; congruence)).
Qed.

(** X12.  One [run] makes at most three tool calls, at most one of each
    kind, in the order: create the environment, install, spawn the
    agent. *)
Theorem run_tool_calls_in_order (h : Host) (agent_path : string)
    (command : option Command) (w : World) :
  tool_calls h agent_path command w
  = List.filter is_venv_create (tool_calls h agent_path command w)
    ++ List.filter is_install (tool_calls h agent_path command w)
    ++ List.filter is_spawn (tool_calls h agent_path command w)
  ∧ (count_events is_venv_create (tool_calls h agent_path command w) <= 1)%nat
  ∧ (count_events is_install (tool_calls h agent_path command w) <= 1)%nat
  ∧ (count_events is_spawn (tool_calls h agent_path command w) <= 1)%nat
  ∧ (length (tool_calls h agent_path command w) <= 3)%nat.
Proof.
  destruct (run_cases h agent_path command w)
    as (cr & ins & sp & -> & [->|[o ->]] & [->|[rc ->]] & [->|[rc' ->]] & _).
  all: cbn; repeat split; lia.
Qed.

(** X13.  [run] stops at the first tool call that fails: a failed call
    (environment creation raising, installer or agent exiting non-zero)
    is always the last call made, and [run] then raises.  So when
    [run] returns, every tool call it made has succeeded. *)
Theorem run_stops_at_first_failure (h : Host) (agent_path : string)
    (command : option Command) (w : World) :
  (forall e : Event,
     In e (tool_calls h agent_path command w) ->
     step_ok e = false ->
     last (tool_calls h agent_path command w) = Some e
     ∧ exists x : exn, outcome (run h agent_path command) w = Raise x)
  ∧ (forall cp : CompletedProcess,
       outcome (run h agent_path command) w = Ok cp ->
       forallb step_ok (tool_calls h agent_path command w) = true).
Proof.
  destruct (run_cases h agent_path command w)
    as (cr & ins & sp & -> & Hcr & Hins & Hsp & H1 & H2 & H3).
  assert (Lcr : (length cr <= 1)%nat)
    by (destruct Hcr as [->|[o ->]]; simpl; lia).
  assert (Lins : (length ins <= 1)%nat)
    by (destruct Hins as [->|[rc ->]]; simpl; lia).
  assert (Lsp : (length sp <= 1)%nat)
    by (destruct Hsp as [->|[rc ->]]; simpl; lia).
  destruct (failed_step_is_last step_ok cr ins sp Lcr Lins Lsp H1 H2)
    as [Hlast Hiff].
  split.
  - intros e Hin Hbad. pose proof (Hlast e Hin Hbad) as Hl.
    split; [exact Hl|].
    assert (Hall : forallb step_ok (cr ++ ins ++ sp) = false)
      by (apply Hiff; exists e; split; assumption).
    rewrite Hall in H3. exact H3.
  - intros cp Hcp.
    destruct (forallb step_ok (cr ++ ins ++ sp)); [reflexivity|].
    destruct H3 as [x Hx]. rewrite Hx in Hcp. discriminate.
Qed.

(** ** The further properties at work *)

Lemma ensure_env_repeat_witness :
  outcome (ensure_env Demo.posix "demo" (Some Demo.manifest)) Demo.with_manifest
  = Ok (env_dir_of Demo.posix "demo")
  ∧ ensure_env Demo.posix "demo" (Some Demo.manifest)
      (after (ensure_env Demo.posix "demo" (Some Demo.manifest)) Demo.with_manifest)
    = (after (ensure_env Demo.posix "demo" (Some Demo.manifest)) Demo.with_manifest,
       Ok (env_dir_of Demo.posix "demo")).
Proof.
  assert (H1 : outcome (ensure_env Demo.posix "demo" (Some Demo.manifest))
                 Demo.with_manifest = Ok (env_dir_of Demo.posix "demo"))
    by (vm_compute; reflexivity).
  split; [exact H1|].
  exact (ensure_env_repeat Demo.posix "demo" (Some Demo.manifest)
           Demo.with_manifest _ H1).
Defined.

Lemma ensure_env_creation_failure_witness :
  In (EvVenvCreate (env_dir_of Demo.broken "demo") true (VenvBroken true))
     (events_since Demo.with_manifest
        (after (ensure_env Demo.broken "demo" (Some Demo.manifest))
           Demo.with_manifest))
  ∧ outcome (ensure_env Demo.broken "demo" (Some Demo.manifest))
      Demo.with_manifest
    = Raise (VenvError (env_dir_of Demo.broken "demo"))
  ∧ count_events is_install
      (events_since Demo.with_manifest
         (after (ensure_env Demo.broken "demo" (Some Demo.manifest))
            Demo.with_manifest)) = 0%nat.
Proof.
  assert (H1 : In (EvVenvCreate (env_dir_of Demo.broken "demo") true
                     (VenvBroken true))
                  (events_since Demo.with_manifest
                     (after (ensure_env Demo.broken "demo" (Some Demo.manifest))
                        Demo.with_manifest)))
    by (vm_compute; left; reflexivity).
  destruct (ensure_env_creation_failure Demo.broken "demo" (Some Demo.manifest)
              Demo.with_manifest true H1) as (_ & Hout & _ & Hcount & _).
  split; [exact H1|]. split; [exact Hout | exact Hcount].
Defined.

Lemma run_warm_witness :
  env_dir_of Demo.posix "demo" ∈ files Fleet.installed
  ∧ files (after (run Demo.posix "demo" None) Fleet.installed)
    = files Fleet.installed.
Proof.
  assert (H1 : env_dir_of Demo.posix (name (resolve Demo.posix "demo"))
                 ∈ files Fleet.installed)
    by holds_by_computation.
  assert (H2 : install_due Demo.posix (name (resolve Demo.posix "demo"))
                 (Some (manifest_of Demo.posix "demo")) Fleet.installed = false)
    by (vm_compute; reflexivity).
  split; [exact H1|].
  exact (proj2 (run_warm Demo.posix "demo" None Fleet.installed H1 H2)).
Defined.

Lemma same_name_same_environment_witness :
  name (resolve Fleet.host "one") = name (resolve Fleet.host "two")
  ∧ manifest_of Fleet.host "two" ∈ files Fleet.installed
  ∧ count_events is_install
      (events_since Fleet.installed
         (after (run Fleet.host "two" None) Fleet.installed)) = 0%nat.
Proof.
  assert (H1 : name (resolve Fleet.host "one") = name (resolve Fleet.host "two"))
    by reflexivity.
  assert (H2 : marker_of Fleet.host (name (resolve Fleet.host "one"))
                 ∈ files Fleet.installed)
    by holds_by_computation.
  split; [exact H1|]. split; [holds_by_computation|].
  exact (proj2 (proj2 (same_name_same_environment Fleet.host "one" "two" None
                         Fleet.installed H1 H2))).
Defined.

Lemma ancestors_exist_after_call_witness :
  (env_dir_of Demo.broken "demo" ∉ files Demo.empty)
  ∧ outcome (ensure_env Demo.broken "demo" None) Demo.empty
    = Raise (VenvError (env_dir_of Demo.broken "demo"))
  ∧ parent (env_dir_of Demo.broken "demo")
      ∈ files (after (ensure_env Demo.broken "demo" None) Demo.empty).
Proof.
  assert (H1 : env_dir_of Demo.broken "demo" ∉ files Demo.empty)
    by holds_by_computation.
  split; [exact H1|]. split; [vm_compute; reflexivity|].
  exact (proj1 (ancestors_exist_after_call Demo.broken "demo" None Demo.empty H1)).
Defined.

